(** * ScanGenius: the page-processing pipeline and the session state of App

    A shallow embedding of the application component ([App], with its state
    hooks and handlers), and the properties of its processing pipeline,
    analysis trigger, archive export and reset.

    Conventions of the embedding:
    - a JavaScript string is the list of its UTF-16 code units ([jsstring]);
    - a JavaScript number that holds a page number, a page count or a
      progress counter is an integer in [Z];
    - the collaborators the component imports ([getDocument],
      [renderPageAsImage], [performOCR], [analyzeText]) are parameters: each
      takes the state of the outside world and returns either the value its
      promise resolves to or the value it rejects with, and the next world;
    - every [useState] cell of the component is a field of [AppState]; a
      handler is a function on stores (component state, world, and the log
      of the effects the handler performed). *)

From Stdlib Require Import String Ascii.
From Stdlib Require Import ZArith NArith List Bool Lia DecimalZ Sorted.
From Equations Require Import Equations.
Import ListNotations.

Set Implicit Arguments.
Open Scope Z_scope.

(** ** JavaScript strings *)

Module JS.

(** A string is a sequence of UTF-16 code units. *)
Definition jsstring := list N.

(** An ASCII literal of the source. *)
Definition lit (s : string) : jsstring :=
  map N_of_ascii (list_ascii_of_string s).

(** The line feed of the escape [\n]. *)
Definition LF : N := 10%N.

Definition digit (d : N) : N := (48 + d)%N.

Fixpoint uint_chars (d : Decimal.uint) : jsstring :=
  match d with
  | Decimal.Nil => []
  | Decimal.D0 d => digit 0 :: uint_chars d
  | Decimal.D1 d => digit 1 :: uint_chars d
  | Decimal.D2 d => digit 2 :: uint_chars d
  | Decimal.D3 d => digit 3 :: uint_chars d
  | Decimal.D4 d => digit 4 :: uint_chars d
  | Decimal.D5 d => digit 5 :: uint_chars d
  | Decimal.D6 d => digit 6 :: uint_chars d
  | Decimal.D7 d => digit 7 :: uint_chars d
  | Decimal.D8 d => digit 8 :: uint_chars d
  | Decimal.D9 d => digit 9 :: uint_chars d
  end.

(** [String(n)] for an integer [n], as a template literal converts it:
    decimal digits, with a leading [-] below zero. *)
Definition numberToString (n : Z) : jsstring :=
  match Z.to_int n with
  | Decimal.Pos d => uint_chars d
  | Decimal.Neg d => 45%N :: uint_chars d
  end.

(** WhiteSpace and LineTerminator code points of ECMAScript, the ones
    [String.prototype.trim] strips. *)
Definition isWhiteSpace (c : N) : bool :=
  ((9 <=? c) && (c <=? 13) || (c =? 32) || (c =? 160) || (c =? 5760)
   || (8192 <=? c) && (c <=? 8202) || (c =? 8232) || (c =? 8233)
   || (c =? 8239) || (c =? 8287) || (c =? 12288) || (c =? 65279))%N.

Fixpoint trimStart (s : jsstring) : jsstring :=
  match s with
  | [] => []
  | c :: s' => if isWhiteSpace c then trimStart s' else s
  end.

Definition trimEnd (s : jsstring) : jsstring := rev (trimStart (rev s)).

(** [s.trim()] *)
Definition trim (s : jsstring) : jsstring := trimEnd (trimStart s).

(** Truthiness of a string: the empty string is the only falsy one. *)
Definition truthy (s : jsstring) : bool :=
  match s with [] => false | _ :: _ => true end.

Fixpoint startsWith (p s : jsstring) : bool :=
  match p, s with
  | [], _ => true
  | _ :: _, [] => false
  | a :: p', b :: s' => (a =? b)%N && startsWith p' s'
  end.

(** [s.includes(p)] *)
Fixpoint includes (p s : jsstring) : bool :=
  startsWith p s || match s with [] => false | _ :: s' => includes p s' end.

(** [s.split(sep)] for a separator of one code unit. *)
Fixpoint split (sep : N) (s : jsstring) : list jsstring :=
  match s with
  | [] => [[]]
  | c :: s' =>
      if (c =? sep)%N then [] :: split sep s'
      else match split sep s' with
           | [] => [[c]]
           | h :: t => (c :: h) :: t
           end
  end.

(** [String(v)] of a possibly undefined string, as a template literal
    converts it. *)
Definition orUndefined (v : option jsstring) : jsstring :=
  match v with Some s => s | None => lit "undefined" end.

End JS.
Import JS.

(** ** types.ts *)

Record ExtractedPage := {
  pageNumber : Z;
  text : jsstring;
  imageUrl : jsstring
}.

Record AnalysisResult := {
  summary : jsstring;
  keywords : list jsstring;
  topics : list jsstring;
  keyPoints : list jsstring
}.

Inductive AppStatus := IDLE | LOADING_PDF | PROCESSING | COMPLETED | ERROR.

Inductive ProcessingMode := ALL | SINGLE | RANGE.

Record ProcessingConfig := {
  mode : ProcessingMode;
  singlePage : Z;
  rangeStart : Z;
  rangeEnd : Z
}.

(** ** The page sequence of a run *)

(** [for (let i = from; i <= to; i++) pagesToProcess.push(i)], started with
    the array [acc]. *)
Equations? pushRange (from to : Z) (acc : list Z) : list Z
  by wf (Z.to_nat (to + 1 - from)) lt :=
  pushRange from to acc with Z_le_dec from to => {
    | left _ := pushRange (from + 1) to (acc ++ [from]);
    | right _ := acc }.
Proof. lia. Qed.

(** The array [pagesToProcess] that [startProcessing] builds from the
    configuration and the page count of the loaded document. *)
Definition pagesToProcess (config : ProcessingConfig) (totalPages : Z) : list Z :=
  match mode config with
  | SINGLE => [singlePage config]
  | RANGE => pushRange (rangeStart config) (rangeEnd config) []
  | ALL => pushRange 1 totalPages []
  end.

(** ** Values the component hands to the browser *)

(** A member of a JSZip archive as [zip.file(name, data, {base64})] stores
    it: [entryData] is [None] when the data passed is [undefined]. *)
Record ZipEntry := {
  entryName : jsstring;
  entryData : option jsstring;
  entryBase64 : bool
}.

(** The JSZip object: its members in insertion order. [zip.file(name, ...)]
    replaces the member that already has this name, and adds one at the
    end otherwise. *)
Fixpoint zipFile (e : ZipEntry) (zip : list ZipEntry) : list ZipEntry :=
  match zip with
  | [] => [e]
  | e' :: zip' =>
      if list_eq_dec N.eq_dec (entryName e') (entryName e) then e :: zip'
      else e' :: zipFile e zip'
  end.

Inductive Blob :=
| TextBlob (parts : jsstring) (type : jsstring)
| ZipBlob (files : list ZipEntry).

Inductive Tab := TabEditor | TabImages | TabAnalysis.

Record Progress := { current : Z; total : Z }.

(** ** The text of a page in the editor *)

(** The page marker and text appended to the editor for one page:
    [`\n\n--- Page ${pageNum} ---\n\n${text}`]. *)
Definition pageText (pageNum : Z) (text : jsstring) : jsstring :=
  [LF; LF] ++ lit "--- Page " ++ numberToString pageNum ++ lit " ---" ++ [LF; LF] ++ text.

(** The editor text a list of page records amounts to: the blocks of the
    pages, in the order of the list. *)
Definition blocksOf (pages : list ExtractedPage) : jsstring :=
  concat (map (fun page => pageText (pageNumber page) (text page)) pages).

Arguments lit : simpl never.
Arguments numberToString : simpl never.
Arguments pageText : simpl never.
Arguments blocksOf : simpl never.

(** ** Reference definitions that do not depend on the services *)

(** The integers from [a] to [b] inclusive, ascending. *)
Definition interval (a b : Z) : list Z :=
  map (fun k => a + Z.of_nat k) (seq 0 (Z.to_nat (b + 1 - a))).

(** The marker of page [k], [--- Page k ---]. *)
Definition marker (k : Z) : jsstring :=
  lit "--- Page " ++ numberToString k ++ lit " ---".

(** The member [handleDownloadImages] stores for a page. *)
Definition memberOf (page : ExtractedPage) : ZipEntry :=
  {| entryName := lit "page_" ++ numberToString (pageNumber page) ++ lit ".jpg";
     entryData := nth_error (split 44 (imageUrl page)) 1;
     entryBase64 := true |}.

(** ** A concrete world for examples *)

Module Demo.

(** A file is its name and the number of pages of the document in it. *)
Definition File : Type := jsstring * Z.
Definition fileName (f : File) : jsstring := fst f.

(** A document is its page count. *)
Definition PdfDoc : Type := Z.
Definition numPages (d : PdfDoc) : Z := d.

Definition Exn : Type := jsstring.

(** The world is the list of the answers the OCR service will give to the
    coming requests: a text, or [None] for a failure. *)
Definition World : Type := list (option jsstring).

Definition getDocument (f : File) (w : World) : (Exn + PdfDoc) * World :=
  if 0 <=? snd f then (inr (snd f), w) else (inl (lit "Invalid PDF structure"), w).

(** A page of the document renders to a data URL, any other page fails. *)
Definition renderPageAsImage (doc : option PdfDoc) (pageNum : Z) (w : World)
    : (Exn + jsstring) * World :=
  match doc with
  | Some n =>
      if (1 <=? pageNum) && (pageNum <=? n)
      then (inr (lit "data:image/jpeg;base64,UGFnZQ=="), w)
      else (inl (lit "Invalid page request"), w)
  | None => (inl (lit "No document"), w)
  end.

Definition performOCR (base64Image : jsstring) (w : World) : (Exn + jsstring) * World :=
  match w with
  | Some t :: w' => (inr t, w')
  | None :: w' => (inl (lit "OCR failed"), w')
  | [] => (inl (lit "Quota exceeded"), [])
  end.

(** The analysis echoes the text as its summary. *)
Definition analyzeText (t : jsstring) (w : World) : (Exn + AnalysisResult) * World :=
  (inr {| summary := t; keywords := []; topics := []; keyPoints := [] |}, w).

End Demo.

(** ** The component *)

Section App.

(** A browser [File], and the [name] property of one. *)
Variable File : Type.
Variable fileName : File -> jsstring.

(** The document object [getDocument] resolves to, and its [numPages]. *)
Variable PdfDoc : Type.
Variable numPages : PdfDoc -> Z.

(** The values promises reject with. *)
Variable Exn : Type.

(** The state of everything outside the component (the PDF library, the
    network, the AI service). *)
Variable World : Type.

(** services/pdfService and services/geminiService: the result of a call
    in a given world is the settled value of the promise it returns. *)
Variable getDocument : File -> World -> (Exn + PdfDoc) * World.
Variable renderPageAsImage : option PdfDoc -> Z -> World -> (Exn + jsstring) * World.
Variable performOCR : jsstring -> World -> (Exn + jsstring) * World.
Variable analyzeText : jsstring -> World -> (Exn + AnalysisResult) * World.

(** *** State hooks *)

Record AppState := {
  status : AppStatus;
  darkMode : bool;
  currentFile : option File;
  pdfDoc : option PdfDoc;
  totalPages : Z;
  extractedPages : list ExtractedPage;
  processingProgress : Progress;
  activeTab : Tab;
  editorText : jsstring;
  analysis : option AnalysisResult;
  isAnalyzing : bool;
  showConfig : bool
}.

(** The initial values given to [useState]. *)
Definition initialState : AppState := {|
  status := IDLE;
  darkMode := false;
  currentFile := None;
  pdfDoc := None;
  totalPages := 0;
  extractedPages := [];
  processingProgress := {| current := 0; total := 0 |};
  activeTab := TabEditor;
  editorText := [];
  analysis := None;
  isAnalyzing := false;
  showConfig := false
|}.

(** The state after one cell is replaced. *)
Definition with_status (v : AppStatus) (st : AppState) : AppState :=
  {| status := v;
     darkMode := darkMode st;
     currentFile := currentFile st;
     pdfDoc := pdfDoc st;
     totalPages := totalPages st;
     extractedPages := extractedPages st;
     processingProgress := processingProgress st;
     activeTab := activeTab st;
     editorText := editorText st;
     analysis := analysis st;
     isAnalyzing := isAnalyzing st;
     showConfig := showConfig st |}.

Definition with_darkMode (v : bool) (st : AppState) : AppState :=
  {| status := status st;
     darkMode := v;
     currentFile := currentFile st;
     pdfDoc := pdfDoc st;
     totalPages := totalPages st;
     extractedPages := extractedPages st;
     processingProgress := processingProgress st;
     activeTab := activeTab st;
     editorText := editorText st;
     analysis := analysis st;
     isAnalyzing := isAnalyzing st;
     showConfig := showConfig st |}.

Definition with_currentFile (v : option File) (st : AppState) : AppState :=
  {| status := status st;
     darkMode := darkMode st;
     currentFile := v;
     pdfDoc := pdfDoc st;
     totalPages := totalPages st;
     extractedPages := extractedPages st;
     processingProgress := processingProgress st;
     activeTab := activeTab st;
     editorText := editorText st;
     analysis := analysis st;
     isAnalyzing := isAnalyzing st;
     showConfig := showConfig st |}.

Definition with_pdfDoc (v : option PdfDoc) (st : AppState) : AppState :=
  {| status := status st;
     darkMode := darkMode st;
     currentFile := currentFile st;
     pdfDoc := v;
     totalPages := totalPages st;
     extractedPages := extractedPages st;
     processingProgress := processingProgress st;
     activeTab := activeTab st;
     editorText := editorText st;
     analysis := analysis st;
     isAnalyzing := isAnalyzing st;
     showConfig := showConfig st |}.

Definition with_totalPages (v : Z) (st : AppState) : AppState :=
  {| status := status st;
     darkMode := darkMode st;
     currentFile := currentFile st;
     pdfDoc := pdfDoc st;
     totalPages := v;
     extractedPages := extractedPages st;
     processingProgress := processingProgress st;
     activeTab := activeTab st;
     editorText := editorText st;
     analysis := analysis st;
     isAnalyzing := isAnalyzing st;
     showConfig := showConfig st |}.

Definition with_extractedPages (v : list ExtractedPage) (st : AppState) : AppState :=
  {| status := status st;
     darkMode := darkMode st;
     currentFile := currentFile st;
     pdfDoc := pdfDoc st;
     totalPages := totalPages st;
     extractedPages := v;
     processingProgress := processingProgress st;
     activeTab := activeTab st;
     editorText := editorText st;
     analysis := analysis st;
     isAnalyzing := isAnalyzing st;
     showConfig := showConfig st |}.

Definition with_processingProgress (v : Progress) (st : AppState) : AppState :=
  {| status := status st;
     darkMode := darkMode st;
     currentFile := currentFile st;
     pdfDoc := pdfDoc st;
     totalPages := totalPages st;
     extractedPages := extractedPages st;
     processingProgress := v;
     activeTab := activeTab st;
     editorText := editorText st;
     analysis := analysis st;
     isAnalyzing := isAnalyzing st;
     showConfig := showConfig st |}.

Definition with_activeTab (v : Tab) (st : AppState) : AppState :=
  {| status := status st;
     darkMode := darkMode st;
     currentFile := currentFile st;
     pdfDoc := pdfDoc st;
     totalPages := totalPages st;
     extractedPages := extractedPages st;
     processingProgress := processingProgress st;
     activeTab := v;
     editorText := editorText st;
     analysis := analysis st;
     isAnalyzing := isAnalyzing st;
     showConfig := showConfig st |}.

Definition with_editorText (v : jsstring) (st : AppState) : AppState :=
  {| status := status st;
     darkMode := darkMode st;
     currentFile := currentFile st;
     pdfDoc := pdfDoc st;
     totalPages := totalPages st;
     extractedPages := extractedPages st;
     processingProgress := processingProgress st;
     activeTab := activeTab st;
     editorText := v;
     analysis := analysis st;
     isAnalyzing := isAnalyzing st;
     showConfig := showConfig st |}.

Definition with_analysis (v : option AnalysisResult) (st : AppState) : AppState :=
  {| status := status st;
     darkMode := darkMode st;
     currentFile := currentFile st;
     pdfDoc := pdfDoc st;
     totalPages := totalPages st;
     extractedPages := extractedPages st;
     processingProgress := processingProgress st;
     activeTab := activeTab st;
     editorText := editorText st;
     analysis := v;
     isAnalyzing := isAnalyzing st;
     showConfig := showConfig st |}.

Definition with_isAnalyzing (v : bool) (st : AppState) : AppState :=
  {| status := status st;
     darkMode := darkMode st;
     currentFile := currentFile st;
     pdfDoc := pdfDoc st;
     totalPages := totalPages st;
     extractedPages := extractedPages st;
     processingProgress := processingProgress st;
     activeTab := activeTab st;
     editorText := editorText st;
     analysis := analysis st;
     isAnalyzing := v;
     showConfig := showConfig st |}.

Definition with_showConfig (v : bool) (st : AppState) : AppState :=
  {| status := status st;
     darkMode := darkMode st;
     currentFile := currentFile st;
     pdfDoc := pdfDoc st;
     totalPages := totalPages st;
     extractedPages := extractedPages st;
     processingProgress := processingProgress st;
     activeTab := activeTab st;
     editorText := editorText st;
     analysis := analysis st;
     isAnalyzing := isAnalyzing st;
     showConfig := v |}.


(** *** Effects and stores *)

(** What a handler does outside its own state: the calls to the imported
    services, [console.error], [alert], and the download [saveAs] starts. *)
Inductive Effect :=
| CallGetDocument (file : File)
| CallRenderPageAsImage (doc : option PdfDoc) (pageNum : Z)
| CallPerformOCR (base64Image : jsstring)
| CallAnalyzeText (text : jsstring)
| ConsoleError (message : option jsstring) (e : Exn)
| Alert (message : jsstring)
| SaveAs (blob : Blob) (name : jsstring).

(** The component state, the world, and the effects so far, oldest first. *)
Record Store := {
  appState : AppState;
  world : World;
  effects : list Effect
}.

(** A computation of a handler: it runs on a store and either returns a
    value or throws, leaving the store it reached. *)
Definition M (A : Type) : Type := Store -> (Exn + A) * Store.

Definition ret {A} (a : A) : M A := fun s => (inr a, s).

Definition throw {A} (e : Exn) : M A := fun s => (inl e, s).

Definition bind {A B} (m : M A) (k : A -> M B) : M B :=
  fun s =>
    match m s with
    | (inr a, s') => k a s'
    | (inl e, s') => (inl e, s')
    end.

(** [try { body } catch (e) { handler }]: what [body] did to the store
    before it threw stays done. *)
Definition tryCatch {A} (body : M A) (handler : Exn -> M A) : M A :=
  fun s =>
    match body s with
    | (inr a, s') => (inr a, s')
    | (inl e, s') => handler e s'
    end.

(** [try { body } finally { final }] *)
Definition tryFinally {A} (body : M A) (final : M unit) : M A :=
  fun s =>
    match body s with
    | (r, s') =>
        match final s' with
        | (inr _, s'') => (r, s'')
        | (inl e, s'') => (inl e, s'')
        end
    end.

(** The closure of a handler reads the state of the render that created
    it: the state of the store when the handler is invoked. *)
Definition getState : M AppState := fun s => (inr (appState s), s).

Definition setState (f : AppState -> AppState) : M unit :=
  fun s => (inr tt, {| appState := f (appState s); world := world s; effects := effects s |}).

Definition perform (e : Effect) : M unit :=
  fun s => (inr tt, {| appState := appState s; world := world s; effects := effects s ++ [e] |}).

(** Calling a service: the call is logged, the world moves on, and the
    value is the settled promise. *)
Definition call {A} (e : Effect) (service : World -> (Exn + A) * World) : M (Exn + A) :=
  fun s =>
    let (p, w) := service (world s) in
    (inr p, {| appState := appState s; world := w; effects := effects s ++ [e] |}).

(** [await p] for a settled promise [p]. *)
Definition await {A} (p : Exn + A) : M A :=
  match p with
  | inr a => ret a
  | inl e => throw e
  end.

Notation "x <- m ;; k" := (bind m (fun x => k))
  (at level 61, m at next level, right associativity).
Notation "m ;; k" := (bind m (fun _ => k))
  (at level 61, right associativity).

(** The state setters. *)
Definition setStatus (v : AppStatus) : M unit := setState (with_status v).
Definition setDarkMode (v : bool) : M unit := setState (with_darkMode v).
Definition setCurrentFile (v : option File) : M unit := setState (with_currentFile v).
Definition setPdfDoc (v : option PdfDoc) : M unit := setState (with_pdfDoc v).
Definition setTotalPages (v : Z) : M unit := setState (with_totalPages v).
Definition setExtractedPages (v : list ExtractedPage) : M unit :=
  setState (with_extractedPages v).
Definition setProcessingProgress (v : Progress) : M unit :=
  setState (with_processingProgress v).
Definition setActiveTab (v : Tab) : M unit := setState (with_activeTab v).
Definition setEditorText (v : jsstring) : M unit := setState (with_editorText v).
Definition setAnalysis (v : option AnalysisResult) : M unit := setState (with_analysis v).
Definition setIsAnalyzing (v : bool) : M unit := setState (with_isAnalyzing v).
Definition setShowConfig (v : bool) : M unit := setState (with_showConfig v).

(** The setters called with an updater, [setX(prev => f(prev))]. *)
Definition updateExtractedPages (f : list ExtractedPage -> list ExtractedPage) : M unit :=
  setState (fun st => with_extractedPages (f (extractedPages st)) st).
Definition updateEditorText (f : jsstring -> jsstring) : M unit :=
  setState (fun st => with_editorText (f (editorText st)) st).

Definition console_error (message : option jsstring) (e : Exn) : M unit :=
  perform (ConsoleError message e).

Definition alert (message : jsstring) : M unit := perform (Alert message).

(** The helper [saveAs]: a link to the blob is created and clicked. *)
Definition saveAs (blob : Blob) (name : jsstring) : M unit := perform (SaveAs blob name).

(** *** Load PDF *)

Definition handleFileSelect (file : File) : M unit :=
  tryCatch
    (setStatus LOADING_PDF ;;
     setCurrentFile (Some file) ;;
     p <- call (CallGetDocument file) (getDocument file) ;;
     doc <- await p ;;
     setPdfDoc (Some doc) ;;
     setTotalPages (numPages doc) ;;
     setShowConfig true ;;
     setStatus IDLE)
    (fun error =>
       console_error None error ;;
       setStatus ERROR ;;
       alert (lit "Failed to load PDF. Please try another file.")).

(** *** Start Processing Loop *)

(** The body of the page loop at index [i]; the value is the local
    [fullTextAccumulator] after the iteration. [pagesToProcess[i]] is read
    with [i] below the length of the array. *)
Definition processPage (doc : option PdfDoc) (pagesToProcess : list Z) (i : nat)
    (fullTextAccumulator : jsstring) : M jsstring :=
  let pageNum := nth i pagesToProcess 0 in
  tryCatch
    (p <- call (CallRenderPageAsImage doc pageNum) (renderPageAsImage doc pageNum) ;;
     base64Image <- await p ;;
     q <- call (CallPerformOCR base64Image) (performOCR base64Image) ;;
     text <- await q ;;
     let newPage :=
       {| pageNumber := pageNum; imageUrl := base64Image; text := text |} in
     updateExtractedPages (fun prev => prev ++ [newPage]) ;;
     let pageText := pageText pageNum text in
     let fullTextAccumulator := fullTextAccumulator ++ pageText in
     updateEditorText (fun prev => prev ++ pageText) ;;
     setProcessingProgress
       {| current := Z.of_nat i + 1; total := Z.of_nat (length pagesToProcess) |} ;;
     ret fullTextAccumulator)
    (fun e =>
       console_error (Some (lit "Error processing page " ++ numberToString pageNum)) e ;;
       ret fullTextAccumulator).

(** [for (let i = from; i < from + n; i++) acc = body i acc]: the loop
    [for (let i = 0; i < pagesToProcess.length; i++)] is
    [forLoop (length pagesToProcess) 0]. *)
Fixpoint forLoop {L} (n : nat) (i : nat) (body : nat -> L -> M L) (locals : L) : M L :=
  match n with
  | O => ret locals
  | S n' => locals' <- body i locals ;; forLoop n' (S i) body locals'
  end.

(** The part of [startProcessing] before the page loop; its value is the
    array [pagesToProcess]. [totalPages] is the state the closure sees. *)
Definition startProcessing_begin (config : ProcessingConfig) (closure : AppState)
    : M (list Z) :=
  setShowConfig false ;;
  setStatus PROCESSING ;;
  setExtractedPages [] ;;
  setEditorText [] ;;
  let pagesToProcess := pagesToProcess config (totalPages closure) in
  setProcessingProgress {| current := 0; total := Z.of_nat (length pagesToProcess) |} ;;
  ret pagesToProcess.

Definition startProcessing (config : ProcessingConfig) : M unit :=
  closure <- getState ;;
  pagesToProcess <- startProcessing_begin config closure ;;
  let fullTextAccumulator := [] in
  _ <- forLoop (length pagesToProcess) 0
         (processPage (pdfDoc closure) pagesToProcess) fullTextAccumulator ;;
  setStatus COMPLETED.

(** *** Analysis Handler *)

(** The guard of [handleAnalyze] and what precedes the request: the value is
    the text sent, or [None] when the handler returns at the guard. *)
Definition handleAnalyze_begin : M (option jsstring) :=
  closure <- getState ;;
  if negb (truthy (trim (editorText closure))) then ret None
  else
    setIsAnalyzing true ;;
    setActiveTab TabAnalysis ;;
    ret (Some (editorText closure)).

(** The rest of the handler once the promise of [analyzeText] has settled
    with [p]. *)
Definition handleAnalyze_settled (p : Exn + AnalysisResult) : M unit :=
  tryFinally
    (tryCatch
       (result <- await p ;;
        setAnalysis (Some result))
       (fun e => console_error None e))
    (setIsAnalyzing false).

(** [handleAnalyze] with nothing else happening while it waits. *)
Definition handleAnalyze : M unit :=
  sent <- handleAnalyze_begin ;;
  match sent with
  | None => ret tt
  | Some text =>
      p <- call (CallAnalyzeText text) (analyzeText text) ;;
      handleAnalyze_settled p
  end.

(** *** Download Handlers *)

(** [currentFile?.name.split('.')[0]] *)
Definition baseName (currentFile : option File) : option jsstring :=
  match currentFile with
  | None => None
  | Some file => nth_error (split 46 (fileName file)) 0
  end.

Definition handleDownloadText : M unit :=
  closure <- getState ;;
  let blob := TextBlob (editorText closure) (lit "text/plain;charset=utf-8") in
  saveAs blob (orUndefined (baseName (currentFile closure)) ++ lit "_extracted.txt").

(** The callback of [extractedPages.forEach]. *)
Definition addPage (zip : list ZipEntry) (page : ExtractedPage) : list ZipEntry :=
  let imgData := nth_error (split 44 (imageUrl page)) 1 in
  zipFile {| entryName := lit "page_" ++ numberToString (pageNumber page) ++ lit ".jpg";
             entryData := imgData;
             entryBase64 := true |} zip.

(** [zip.generateAsync({ type: 'blob' })] resolves to the archive of the
    members added. *)
Definition handleDownloadImages : M unit :=
  closure <- getState ;;
  let zip := fold_left addPage (extractedPages closure) [] in
  let content := ZipBlob zip in
  saveAs content (orUndefined (baseName (currentFile closure)) ++ lit "_images.zip").

(** *** Reset App *)

Definition handleReset : M unit :=
  setCurrentFile None ;;
  setPdfDoc None ;;
  setExtractedPages [] ;;
  setEditorText [] ;;
  setAnalysis None ;;
  setStatus IDLE.

(** *** The view and the events of a session *)

(** The events the rendered view can raise. The components [FileUploader]
    and [ProcessingConfigPanel] may call back with any file and any
    configuration while they are on screen. *)
Inductive UIEvent :=
| ToggleDarkMode
| ClickNew
| FileSelected (file : File)
| ConfigStart (config : ProcessingConfig)
| ConfigCancel
| ClickTab (tab : Tab)
| ClickDownloadText
| ClickDownloadImages
| EditorChange (value : jsstring)
| ClickGenerateAnalysis.

Definition isNone {A} (o : option A) : bool :=
  match o with None => true | Some _ => false end.

Definition status_eqb (a b : AppStatus) : bool :=
  match a, b with
  | IDLE, IDLE | LOADING_PDF, LOADING_PDF | PROCESSING, PROCESSING
  | COMPLETED, COMPLETED | ERROR, ERROR => true
  | _, _ => false
  end.

Definition tab_eqb (a b : Tab) : bool :=
  match a, b with
  | TabEditor, TabEditor | TabImages, TabImages | TabAnalysis, TabAnalysis => true
  | _, _ => false
  end.

(** Whether the control that raises the event is rendered in state [st]:
    the header shows the dark-mode toggle always and [New] when the status
    is COMPLETED; [renderHome] (status IDLE) shows the configuration panel
    when [showConfig] and the uploader otherwise; [renderProcessing] shows
    no control; [renderWorkspace] (status COMPLETED) shows the tabs and the
    download buttons, the textarea on the editor tab, and the
    [Generate Analysis] button on the analysis tab while there is no result
    and no analysis is running. *)
Definition onScreen (e : UIEvent) (st : AppState) : bool :=
  match e with
  | ToggleDarkMode => true
  | ClickNew => status_eqb (status st) COMPLETED
  | FileSelected _ => status_eqb (status st) IDLE && negb (showConfig st)
  | ConfigStart _ | ConfigCancel => status_eqb (status st) IDLE && showConfig st
  | ClickTab _ | ClickDownloadText | ClickDownloadImages =>
      status_eqb (status st) COMPLETED
  | EditorChange _ =>
      status_eqb (status st) COMPLETED && tab_eqb (activeTab st) TabEditor
  | ClickGenerateAnalysis =>
      status_eqb (status st) COMPLETED && tab_eqb (activeTab st) TabAnalysis
      && isNone (analysis st) && negb (isAnalyzing st)
  end.

(** A session: the store, and the promises of [analyzeText] that have not
    settled yet, each with the value it will settle with. *)
Record Session := {
  store : Store;
  inFlight : list (Exn + AnalysisResult)
}.

Definition initialStore (w : World) : Store :=
  {| appState := initialState; world := w; effects := [] |}.

Definition initialSession (w : World) : Session :=
  {| store := initialStore w; inFlight := [] |}.

(** Running a handler to its end. *)
Definition exec {A} (m : M A) (ss : Session) : Session :=
  {| store := snd (m (store ss)); inFlight := inFlight ss |}.

(** [handleAnalyze] as far as its [await]: the request is sent and the
    handler is suspended on the promise. *)
Definition requestAnalysis (ss : Session) : Session :=
  match handleAnalyze_begin (store ss) with
  | (inr (Some text), s1) =>
      match call (CallAnalyzeText text) (analyzeText text) s1 with
      | (inr p, s2) => {| store := s2; inFlight := inFlight ss ++ [p] |}
      | (inl _, s2) => {| store := s2; inFlight := inFlight ss |}
      end
  | (_, s1) => {| store := s1; inFlight := inFlight ss |}
  end.

(** The handler of each event. [handleFileSelect] and [startProcessing]
    run to their end in one step: while they wait the view is
    [renderProcessing], whose only control is the dark-mode toggle, and an
    analysis that settles meanwhile writes [analysis] and [isAnalyzing]
    only, cells these two handlers neither read nor write. [handleAnalyze]
    is suspended at its request: the workspace stays on screen while it
    waits. *)
Definition dispatch (e : UIEvent) (ss : Session) : Session :=
  match e with
  | ToggleDarkMode => exec (st <- getState ;; setDarkMode (negb (darkMode st))) ss
  | ClickNew => exec handleReset ss
  | FileSelected file => exec (handleFileSelect file) ss
  | ConfigStart config => exec (startProcessing config) ss
  | ConfigCancel => exec (setShowConfig false ;; setCurrentFile None) ss
  | ClickTab TabAnalysis =>
      let ss' := exec (setActiveTab TabAnalysis) ss in
      if isNone (analysis (appState (store ss))) then requestAnalysis ss' else ss'
  | ClickTab tab => exec (setActiveTab tab) ss
  | ClickDownloadText => exec handleDownloadText ss
  | ClickDownloadImages => exec handleDownloadImages ss
  | EditorChange value => exec (setEditorText value) ss
  | ClickGenerateAnalysis => requestAnalysis ss
  end.

(** Removing the element at index [n]. *)
Fixpoint removeAt {A} (n : nat) (l : list A) : list A :=
  match n, l with
  | _, [] => []
  | O, _ :: l' => l'
  | S n', a :: l' => a :: removeAt n' l'
  end.

Inductive Event :=
| UI (e : UIEvent)
| AnalysisSettles (n : nat).

(** One step of a session: an event of a control on screen, or the
    settling of the in-flight promise at index [n], which resumes the
    handler suspended on it. [None] when the event cannot happen. *)
Definition step (ev : Event) (ss : Session) : option Session :=
  match ev with
  | UI e => if onScreen e (appState (store ss)) then Some (dispatch e ss) else None
  | AnalysisSettles n =>
      match nth_error (inFlight ss) n with
      | Some p =>
          Some {| store := snd (handleAnalyze_settled p (store ss));
                  inFlight := removeAt n (inFlight ss) |}
      | None => None
      end
  end.

Fixpoint replay (evs : list Event) (ss : Session) : option Session :=
  match evs with
  | [] => Some ss
  | ev :: evs' =>
      match step ev ss with
      | Some ss' => replay evs' ss'
      | None => None
      end
  end.

(** The sessions a user can bring about. *)
Inductive reachable : Session -> Prop :=
| reachable_initial w : reachable (initialSession w)
| reachable_step ss ev ss' : reachable ss -> step ev ss = Some ss' -> reachable ss'.

(** *** Reference definitions for the statements *)

(** The page numbers [renderPageAsImage] was called with, in call order:
    the pages a run visited. *)
Definition visited (log : list Effect) : list Z :=
  flat_map (fun e => match e with
                     | CallRenderPageAsImage _ pageNum => [pageNum]
                     | _ => []
                     end) log.

Arguments visited : simpl never.

(** What the services answer for one page in world [w]: the rendered image
    and the recognised text, or the error of the first of the two calls that
    fails. *)
Definition attempt (doc : option PdfDoc) (pageNum : Z) (w : World)
    : (Exn + jsstring * jsstring) * World :=
  match renderPageAsImage doc pageNum w with
  | (inl e, w1) => (inl e, w1)
  | (inr base64Image, w1) =>
      match performOCR base64Image w1 with
      | (inl e, w2) => (inl e, w2)
      | (inr text, w2) => (inr (base64Image, text), w2)
      end
  end.

(** The records of the pages of [pages], attempted in this order from
    world [w], whose render and OCR both succeed. *)
Fixpoint succeeded (doc : option PdfDoc) (pages : list Z) (w : World)
    : list ExtractedPage :=
  match pages with
  | [] => []
  | pageNum :: rest =>
      match attempt doc pageNum w with
      | (inr (base64Image, text), w') =>
          {| pageNumber := pageNum; imageUrl := base64Image; text := text |}
            :: succeeded doc rest w'
      | (inl _, w') => succeeded doc rest w'
      end
  end.

(** The world after the pages of [pages] have been attempted. *)
Fixpoint worldAfter (doc : option PdfDoc) (pages : list Z) (w : World) : World :=
  match pages with
  | [] => w
  | pageNum :: rest => worldAfter doc rest (snd (attempt doc pageNum w))
  end.

(** The store of a run of [startProcessing] after [j] iterations of its
    page loop. *)
Definition afterIterations (config : ProcessingConfig) (j : nat) (s : Store) : Store :=
  snd ((closure <- getState ;;
        pagesToProcess <- startProcessing_begin config closure ;;
        forLoop j 0 (processPage (pdfDoc closure) pagesToProcess) []) s).

(** Two states that differ at most in the cells the page loop writes:
    [extractedPages], [editorText] and [processingProgress]. *)
Definition sameOutsideLoopCells (a b : AppState) : Prop :=
  status a = status b /\ darkMode a = darkMode b /\ currentFile a = currentFile b
  /\ pdfDoc a = pdfDoc b /\ totalPages a = totalPages b /\ activeTab a = activeTab b
  /\ analysis a = analysis b /\ isAnalyzing a = isAnalyzing b
  /\ showConfig a = showConfig b.

(** The store at the entry of the page loop of a run started in [s]. *)
Definition loopEntry (config : ProcessingConfig) (s : Store) : Store :=
  snd (startProcessing_begin config (appState s) s).

(** [p] occurs in [s] as a substring. *)
Definition occursIn (p s : jsstring) : Prop :=
  exists pre post, s = pre ++ p ++ post.

(** What holds of the state of every session a user can bring about: the
    page numbers of the records are strictly ascending, and while the status
    is IDLE there is no record and no editor text. *)
Definition sessionInvariant (st : AppState) : Prop :=
  StronglySorted Z.lt (map pageNumber (extractedPages st))
  /\ (status st = IDLE -> extractedPages st = [] /\ editorText st = []).

(** *** The rest of the view *)

(** [s.substring(a, b)] for [0 <= a <= b]. *)
Definition substring (a b : nat) (s : jsstring) : jsstring :=
  firstn (b - a) (skipn a s).

(** The text of the [Live Output] card of [renderProcessing], shown when
    [extractedPages.length > 0]:
    [extractedPages[extractedPages.length - 1].text.substring(0, 200)]. *)
Definition livePreview (st : AppState) : option jsstring :=
  if (0 <? length (extractedPages st))%nat
  then match nth_error (extractedPages st) (length (extractedPages st) - 1) with
       | Some page => Some (substring 0 200 (text page))
       | None => None
       end
  else None.

(** [classList.add(token)] and [classList.remove(token)] on the list of the
    class tokens of an element: a token is in the list at most once. *)
Definition classList_add (token : jsstring) (classList : list jsstring) : list jsstring :=
  if in_dec (list_eq_dec N.eq_dec) token classList then classList
  else classList ++ [token].

Definition classList_remove (token : jsstring) (classList : list jsstring) : list jsstring :=
  filter (fun t => if list_eq_dec N.eq_dec t token then false else true) classList.

(** The effect [Toggle Dark Mode] on the class list of the root element;
    it runs on mount and after every render that changed [darkMode]. *)
Definition darkModeEffect (darkMode : bool) (classList : list jsstring) : list jsstring :=
  if darkMode then classList_add (lit "dark") classList
  else classList_remove (lit "dark") classList.

(** *** More reference definitions *)

(** The message [`Error processing page ${pageNum}`]. *)
Definition errorMessage (pageNum : Z) : jsstring :=
  lit "Error processing page " ++ numberToString pageNum.

(** The messages given to [console.error], the images sent to
    [performOCR] and the texts sent to [analyzeText], in the order of a
    log. *)
Definition loggedErrors (log : list Effect) : list (option jsstring) :=
  flat_map (fun e => match e with ConsoleError m _ => [m] | _ => [] end) log.

Definition ocrRequests (log : list Effect) : list jsstring :=
  flat_map (fun e => match e with CallPerformOCR img => [img] | _ => [] end) log.

Definition analysisRequests (log : list Effect) : list jsstring :=
  flat_map (fun e => match e with CallAnalyzeText t => [t] | _ => [] end) log.

(** The effects of the attempt of one page in world [w], and of the
    attempts of the pages of a list. *)
Definition pageLog (doc : option PdfDoc) (pageNum : Z) (w : World) : list Effect :=
  match renderPageAsImage doc pageNum w with
  | (inl e, _) =>
      [CallRenderPageAsImage doc pageNum; ConsoleError (Some (errorMessage pageNum)) e]
  | (inr base64Image, w1) =>
      match performOCR base64Image w1 with
      | (inl e, _) =>
          [CallRenderPageAsImage doc pageNum; CallPerformOCR base64Image;
           ConsoleError (Some (errorMessage pageNum)) e]
      | (inr _, _) => [CallRenderPageAsImage doc pageNum; CallPerformOCR base64Image]
      end
  end.

Fixpoint runLog (doc : option PdfDoc) (pages : list Z) (w : World) : list Effect :=
  match pages with
  | [] => []
  | pageNum :: rest => pageLog doc pageNum w ++ runLog doc rest (snd (attempt doc pageNum w))
  end.

(** Whether the services answer for the page at index [i] of a run, in the
    world the run has reached after [i] iterations. *)
Definition succeedsAt (config : ProcessingConfig) (s : Store) (i : nat) : bool :=
  match fst (attempt (pdfDoc (appState s))
               (nth i (pagesToProcess config (totalPages (appState s))) 0)
               (world (afterIterations config i s))) with
  | inr _ => true
  | inl _ => false
  end.

(** What holds of every session a user can bring about, besides
    [sessionInvariant]: while the configuration panel or the workspace is
    shown a file and a document are loaded, with the page count of the
    document; the panel is not shown beside the workspace; [isAnalyzing] is
    off when no analysis is in flight; and no page was ever rendered without
    a document. *)
Definition loadedInvariant (ss : Session) : Prop :=
  let st := appState (store ss) in
  (showConfig st = true \/ status st = COMPLETED ->
   currentFile st <> None
   /\ exists doc, pdfDoc st = Some doc /\ totalPages st = numPages doc)
  /\ (showConfig st = true -> status st = IDLE)
  /\ (inFlight ss = [] -> isAnalyzing st = false)
  /\ (forall d p, In (CallRenderPageAsImage d p) (effects (store ss)) -> d <> None).

(** * Properties *)

Unset Implicit Arguments.

(** ** The page sequence *)

Lemma interval_cons (a b : Z) : a <= b -> interval a b = a :: interval (a + 1) b.
Proof.
  intros Hab. unfold interval.
  replace (Z.to_nat (b + 1 - a)) with (S (Z.to_nat (b + 1 - (a + 1)))) by lia.
  cbn [seq map]. f_equal; [lia|].
  rewrite <- seq_shift, map_map. apply map_ext. intros k. lia.
Qed.

Lemma interval_empty (a b : Z) : b < a -> interval a b = [].
Proof.
  intros Hab. unfold interval.
  replace (Z.to_nat (b + 1 - a)) with O by lia. reflexivity.
Qed.

Lemma interval_In (a b p : Z) : In p (interval a b) <-> a <= p <= b.
Proof.
  unfold interval. rewrite in_map_iff. split.
  - intros (k & <- & Hk). apply in_seq in Hk. lia.
  - intros Hp. exists (Z.to_nat (p - a)). split; [lia|]. apply in_seq. lia.
Qed.

Lemma interval_length (a b : Z) : length (interval a b) = Z.to_nat (b + 1 - a).
Proof. unfold interval. now rewrite length_map, length_seq. Qed.

Lemma interval_nth (a b : Z) (i : nat) :
  (i < length (interval a b))%nat -> nth i (interval a b) 0 = a + Z.of_nat i.
Proof.
  intros Hi. rewrite interval_length in Hi. unfold interval.
  rewrite (nth_indep _ 0 (a + Z.of_nat 0)) by now rewrite length_map, length_seq.
  rewrite (map_nth (fun k => a + Z.of_nat k) _ O i), seq_nth by assumption.
  reflexivity.
Qed.

Lemma interval_sorted (a b : Z) : StronglySorted Z.lt (interval a b).
Proof.
  remember (Z.to_nat (b + 1 - a)) as n eqn:Hn. revert a Hn.
  induction n as [|n IH]; intros a Hn.
  - rewrite interval_empty by lia. constructor.
  - rewrite interval_cons by lia. constructor.
    + apply IH. lia.
    + apply Forall_forall. intros p Hp. apply interval_In in Hp. lia.
Qed.

Lemma pushRange_interval (a b : Z) (acc : list Z) :
  pushRange a b acc = acc ++ interval a b.
Proof.
  funelim (pushRange a b acc).
  - match goal with IH : pushRange _ _ _ = _ ++ _ |- _ => rewrite IH end.
    rewrite (interval_cons _ _ l), <- app_assoc. reflexivity.
  - rewrite interval_empty by lia. now rewrite app_nil_r.
Qed.

Lemma pagesToProcess_interval (config : ProcessingConfig) (n : Z) :
  pagesToProcess config n =
  match mode config with
  | ALL => interval 1 n
  | SINGLE => [singlePage config]
  | RANGE => interval (rangeStart config) (rangeEnd config)
  end.
Proof.
  unfold pagesToProcess. destruct (mode config); now rewrite ?pushRange_interval.
Qed.

Lemma pagesToProcess_sorted (config : ProcessingConfig) (n : Z) :
  StronglySorted Z.lt (pagesToProcess config n).
Proof.
  rewrite pagesToProcess_interval. destruct (mode config); try apply interval_sorted.
  repeat constructor.
Qed.


(** ** The page loop *)

Lemma sameOutsideLoopCells_refl (a : AppState) : sameOutsideLoopCells a a.
Proof. repeat split. Qed.

Lemma sameOutsideLoopCells_trans (a b c : AppState) :
  sameOutsideLoopCells a b -> sameOutsideLoopCells b c -> sameOutsideLoopCells a c.
Proof.
  unfold sameOutsideLoopCells. intros H1 H2.
  repeat match goal with H : _ /\ _ |- _ => destruct H end.
  repeat split; congruence.
Qed.

Lemma visited_app (l1 l2 : list Effect) : visited (l1 ++ l2) = visited l1 ++ visited l2.
Proof. unfold visited. apply flat_map_app. Qed.

(** One iteration on a page the services answer: the record and the block
    are appended, the progress is advanced. *)
Lemma processPage_success doc pages i acc s base64Image text w' :
  attempt doc (nth i pages 0) (world s) = (inr (base64Image, text), w') ->
  processPage doc pages i acc s =
  (inr (acc ++ pageText (nth i pages 0) text),
   {| appState :=
        with_processingProgress
          {| current := Z.of_nat i + 1; total := Z.of_nat (length pages) |}
          (with_editorText (editorText (appState s) ++ pageText (nth i pages 0) text)
             (with_extractedPages
                (extractedPages (appState s) ++
                 [{| pageNumber := nth i pages 0; imageUrl := base64Image; text := text |}])
                (appState s)));
      world := w';
      effects := (effects s ++ [CallRenderPageAsImage doc (nth i pages 0)])
                 ++ [CallPerformOCR base64Image] |}).
Proof.
  unfold attempt, processPage, tryCatch, bind, call, await; cbn.
  destruct (renderPageAsImage doc (nth i pages 0) (world s)) as [[e|img] w1]; cbn;
    [discriminate|].
  destruct (performOCR img w1) as [[e|t] w2]; cbn; [discriminate|].
  intros H. injection H as -> -> ->. reflexivity.
Qed.

(** One iteration on a page for which a service fails: the error is
    logged and nothing else changes. *)
Lemma processPage_failure doc pages i acc s e w' :
  attempt doc (nth i pages 0) (world s) = (inl e, w') ->
  exists log,
    processPage doc pages i acc s =
    (inr acc, {| appState := appState s; world := w'; effects := effects s ++ log |})
    /\ visited log = [nth i pages 0].
Proof.
  unfold attempt, processPage, tryCatch, bind, call, await; cbn.
  destruct (renderPageAsImage doc (nth i pages 0) (world s)) as [[e1|img] w1]; cbn.
  - intros H. injection H as -> ->.
    eexists. rewrite <- app_assoc. split; [reflexivity|]. reflexivity.
  - destruct (performOCR img w1) as [[e2|t] w2]; cbn; [|discriminate].
    intros H. injection H as -> ->.
    eexists. rewrite <- !app_assoc. split; [reflexivity|]. reflexivity.
Qed.


Lemma blocksOf_app (l1 l2 : list ExtractedPage) :
  blocksOf (l1 ++ l2) = blocksOf l1 ++ blocksOf l2.
Proof. unfold blocksOf. now rewrite map_app, concat_app. Qed.

Lemma blocksOf_cons (page : ExtractedPage) (l : list ExtractedPage) :
  blocksOf (page :: l) = pageText (pageNumber page) (text page) ++ blocksOf l.
Proof. reflexivity. Qed.

(** The iterations of the page loop at the indices of the pages [mid],
    where the array is [pre ++ mid ++ post]: what they return and the
    store they leave. *)
Lemma pageLoop_run doc (mid post : list Z) :
  forall (pre : list Z) (acc : jsstring) (s : Store),
  exists s',
    forLoop (length mid) (length pre) (processPage doc (pre ++ mid ++ post)) acc s =
      (inr (acc ++ blocksOf (succeeded doc mid (world s))), s')
    /\ extractedPages (appState s') = extractedPages (appState s) ++ succeeded doc mid (world s)
    /\ editorText (appState s') = editorText (appState s) ++ blocksOf (succeeded doc mid (world s))
    /\ world s' = worldAfter doc mid (world s)
    /\ visited (effects s') = visited (effects s) ++ mid
    /\ sameOutsideLoopCells (appState s) (appState s').
Proof.
  induction mid as [|p mid IH]; intros pre acc s.
  - exists s. cbn. rewrite !app_nil_r. repeat split.
  - change ((p :: mid) ++ post) with (p :: mid ++ post).
    assert (Hnth : nth (length pre) (pre ++ p :: mid ++ post) 0 = p)
      by (rewrite app_nth2, Nat.sub_diag by lia; reflexivity).
    specialize (IH (pre ++ [p])).
    rewrite <- app_assoc, length_app, Nat.add_1_r in IH. cbn [app] in IH.
    cbn [length forLoop succeeded worldAfter]. unfold bind at 1.
    destruct (attempt doc p (world s)) as [[e|[img t]] w'] eqn:Hat.
    + destruct (processPage_failure doc (pre ++ p :: mid ++ post) (length pre) acc s)
        with (e := e) (w' := w') as (log & -> & Hlog); [now rewrite Hnth|].
      destruct (IH acc {| appState := appState s; world := w'; effects := effects s ++ log |})
        as (s' & Hrun & Hpages & Htext & Hworld & Hvis & Hframe).
      cbn in *. exists s'. rewrite Hrun, Hpages, Htext, Hworld, Hvis.
      rewrite visited_app, Hlog, Hnth, <- app_assoc. repeat split; apply Hframe.
    + rewrite (processPage_success doc (pre ++ p :: mid ++ post) (length pre) acc s)
        with (base64Image := img) (text := t) (w' := w') by now rewrite Hnth.
      rewrite Hnth.
      match goal with
      | |- context [forLoop _ _ _ ?a ?st] => destruct (IH a st)
          as (s' & Hrun & Hpages & Htext & Hworld & Hvis & Hframe)
      end.
      cbn in Hrun, Hpages, Htext, Hworld, Hvis, Hframe.
      exists s'. rewrite Hrun, Hpages, Htext, Hworld, Hvis.
      rewrite !visited_app, blocksOf_cons, <- !app_assoc. cbn.
      repeat split; apply Hframe.
Qed.

(** The store at the entry of the page loop. *)
Lemma startProcessing_begin_eq config closure s :
  startProcessing_begin config closure s =
  (inr (pagesToProcess config (totalPages closure)),
   {| appState :=
        with_processingProgress
          {| current := 0;
             total := Z.of_nat (length (pagesToProcess config (totalPages closure))) |}
          (with_editorText []
             (with_extractedPages []
                (with_status PROCESSING (with_showConfig false (appState s)))));
      world := world s;
      effects := effects s |}).
Proof. reflexivity. Qed.

(** A whole run: it returns without throwing, and leaves the records and
    the blocks of the pages that succeeded. *)
Lemma startProcessing_run config s :
  exists s',
    startProcessing config s = (inr tt, s')
    /\ status (appState s') = COMPLETED
    /\ extractedPages (appState s') =
       succeeded (pdfDoc (appState s)) (pagesToProcess config (totalPages (appState s))) (world s)
    /\ editorText (appState s') =
       blocksOf (succeeded (pdfDoc (appState s))
                   (pagesToProcess config (totalPages (appState s))) (world s))
    /\ world s' =
       worldAfter (pdfDoc (appState s)) (pagesToProcess config (totalPages (appState s))) (world s)
    /\ visited (effects s') =
       visited (effects s) ++ pagesToProcess config (totalPages (appState s))
    /\ analysis (appState s') = analysis (appState s)
    /\ showConfig (appState s') = false.
Proof.
  unfold startProcessing, bind at 1 2 3, getState.
  rewrite startProcessing_begin_eq.
  set (pages := pagesToProcess config (totalPages (appState s))).
  match goal with
  | |- context [forLoop _ _ _ ?a ?st] =>
      destruct (pageLoop_run (pdfDoc (appState s)) pages [] [] a st)
        as (s' & Hrun & Hpages & Htext & Hworld & Hvis & Hframe)
  end.
  rewrite app_nil_r in Hrun. cbn [length app] in Hrun. rewrite Hrun.
  unfold sameOutsideLoopCells in Hframe.
  cbn in Hpages, Htext, Hworld, Hvis, Hframe.
  eexists. split; [reflexivity|]. cbn.
  repeat match goal with H : _ /\ _ |- _ => destruct H end.
  repeat split; congruence.
Qed.


(** The store at the end of a run with no page to visit. *)
Lemma startProcessing_no_page config s :
  pagesToProcess config (totalPages (appState s)) = [] ->
  startProcessing config s =
  (inr tt,
   {| appState :=
        with_status COMPLETED
          (with_processingProgress {| current := 0; total := 0 |}
             (with_editorText []
                (with_extractedPages []
                   (with_status PROCESSING (with_showConfig false (appState s))))));
      world := world s;
      effects := effects s |}).
Proof.
  intros Hnil. unfold startProcessing, bind at 1 2 3, getState.
  rewrite startProcessing_begin_eq, Hnil. reflexivity.
Qed.

(** ** The records of a run *)

Lemma succeeded_pageNumber_In doc pages : forall w page,
  In page (succeeded doc pages w) -> In (pageNumber page) pages.
Proof.
  induction pages as [|p pages IH]; intros w page; cbn [succeeded]; [easy|].
  destruct (attempt doc p w) as [[e|[img t]] w'].
  - intros H. right. eauto.
  - intros [<-|H]; [now left|right; eauto].
Qed.

Lemma succeeded_sorted doc pages : forall w,
  StronglySorted Z.lt pages ->
  StronglySorted Z.lt (map pageNumber (succeeded doc pages w)).
Proof.
  induction pages as [|p pages IH]; intros w Hs; cbn [succeeded]; [constructor|].
  apply StronglySorted_inv in Hs. destruct Hs as [Hs Hp].
  destruct (attempt doc p w) as [[e|[img t]] w']; [now apply IH|].
  cbn [map pageNumber]. constructor; [now apply IH|].
  apply Forall_forall. intros k Hk. apply in_map_iff in Hk.
  destruct Hk as (page & <- & Hpage).
  rewrite Forall_forall in Hp. apply Hp.
  eapply succeeded_pageNumber_In; eassumption.
Qed.

Lemma worldAfter_app doc l1 : forall l2 w,
  worldAfter doc (l1 ++ l2) w = worldAfter doc l2 (worldAfter doc l1 w).
Proof. induction l1 as [|p l1 IH]; intros l2 w; cbn; [reflexivity|apply IH]. Qed.

Lemma succeeded_app doc l1 : forall l2 w,
  succeeded doc (l1 ++ l2) w =
  succeeded doc l1 w ++ succeeded doc l2 (worldAfter doc l1 w).
Proof.
  induction l1 as [|p l1 IH]; intros l2 w; cbn [app succeeded worldAfter]; [reflexivity|].
  destruct (attempt doc p w) as [[e|[img t]] w']; cbn [snd]; rewrite IH; reflexivity.
Qed.

(** A record is among those of the pages that succeeded exactly when it is
    the answer of the services for the page at some index, in the world the
    earlier attempts left. *)
Lemma succeeded_In doc pages w page :
  In page (succeeded doc pages w) <->
  exists j, (j < length pages)%nat
    /\ pageNumber page = nth j pages 0
    /\ fst (attempt doc (nth j pages 0) (worldAfter doc (firstn j pages) w)) =
       inr (imageUrl page, text page).
Proof.
  revert w. induction pages as [|p pages IH]; intros w; cbn [succeeded].
  - split; [easy|]. intros (j & Hj & _). cbn in Hj. lia.
  - split.
    + destruct (attempt doc p w) as [[e|[img t]] w'] eqn:Hat.
      * intros H. apply IH in H. destruct H as (j & Hj & Hn & Ha).
        exists (S j). cbn [length firstn nth worldAfter]. rewrite Hat.
        repeat split; [lia|assumption|assumption].
      * intros [<-|H].
        -- exists O. cbn. rewrite Hat. repeat split. lia.
        -- apply IH in H. destruct H as (j & Hj & Hn & Ha).
           exists (S j). cbn [length firstn nth worldAfter]. rewrite Hat.
           repeat split; [lia|assumption|assumption].
    + intros ([|j] & Hj & Hn & Ha).
      * cbn in Hn, Ha. destruct (attempt doc p w) as [[e|[img t]] w'];
          cbn in Ha; [discriminate|].
        left. destruct page as [n tx im]. cbn in *. congruence.
      * cbn [length firstn nth worldAfter] in Hj, Hn, Ha.
        assert (In page (succeeded doc pages (snd (attempt doc p w)))) as Hin
          by (apply IH; exists j; repeat split; [lia|assumption|assumption]).
        destruct (attempt doc p w) as [[e|[img t]] w']; cbn [snd] in Hin;
          [assumption|now right].
Qed.


Lemma interval_nil_iff (a b : Z) : interval a b = [] <-> b < a.
Proof.
  split; [|apply interval_empty].
  intros H. destruct (Z_lt_dec b a) as [|Hge]; [assumption|].
  rewrite interval_cons in H by lia. discriminate.
Qed.

(** ** The claims on the processing pipeline *)

(** C1. The pages a run visits, that is the page numbers it asks the
    renderer for, in call order, are fixed by the configuration: in mode ALL
    they are the integers from 1 to [totalPages] inclusive, in mode SINGLE
    the configured page alone, in mode RANGE the integers from [rangeStart]
    to [rangeEnd] inclusive; such an interval lists, in strictly ascending
    order, exactly the integers between its bounds, and it is empty exactly
    when the start is above the end. *)
Theorem visited_pages_determined_by_config (config : ProcessingConfig) (s : Store) :
  visited (effects (snd (startProcessing config s))) =
    visited (effects s) ++
    match mode config with
    | ALL => interval 1 (totalPages (appState s))
    | SINGLE => [singlePage config]
    | RANGE => interval (rangeStart config) (rangeEnd config)
    end
  /\ (forall a b p, In p (interval a b) <-> a <= p <= b)
  /\ (forall a b, StronglySorted Z.lt (interval a b))
  /\ (forall a b, interval a b = [] <-> b < a).
Proof.
  split; [|split; [|split]].
  - destruct (startProcessing_run config s) as (s' & -> & _ & _ & _ & _ & Hvis & _).
    cbn [snd]. rewrite Hvis, pagesToProcess_interval. reflexivity.
  - apply interval_In.
  - apply interval_sorted.
  - apply interval_nil_iff.
Qed.

(** C3. After a run the editor text is the concatenation of the blocks
    [\n\n--- Page n ---\n\n text_n] of the pages whose render and OCR both
    succeeded, in ascending page order: the pages of the list [ok], whose
    page numbers are strictly ascending and whose members are exactly the
    answers of the two services for the pages of the sequence. *)
Theorem editor_text_concatenates_succeeded_pages (config : ProcessingConfig) (s : Store) :
  let pages := pagesToProcess config (totalPages (appState s)) in
  let doc := pdfDoc (appState s) in
  let ok := succeeded doc pages (world s) in
  editorText (appState (snd (startProcessing config s))) =
    concat (map (fun page =>
                   [LF; LF] ++ lit "--- Page " ++ numberToString (pageNumber page)
                   ++ lit " ---" ++ [LF; LF] ++ text page) ok)
  /\ StronglySorted Z.lt (map pageNumber ok)
  /\ (forall page,
        In page ok <->
        exists j, (j < length pages)%nat
          /\ pageNumber page = nth j pages 0
          /\ fst (attempt doc (nth j pages 0) (worldAfter doc (firstn j pages) (world s))) =
             inr (imageUrl page, text page)).
Proof.
  intros pages doc ok. split; [|split].
  - destruct (startProcessing_run config s) as (s' & -> & _ & _ & Htext & _).
    cbn [snd]. rewrite Htext. reflexivity.
  - apply succeeded_sorted, pagesToProcess_sorted.
  - intros page. apply succeeded_In.
Qed.

(** C4. A run always returns, and it leaves the status COMPLETED whatever
    the services answered; when the sequence of pages is empty, as for a
    range whose start is above its end, it ends with no extracted page,
    without having called a service. *)
Theorem run_ends_completed (config : ProcessingConfig) (s : Store) :
  let r := startProcessing config s in
  fst r = inr tt
  /\ status (appState (snd r)) = COMPLETED
  /\ (pagesToProcess config (totalPages (appState s)) = [] ->
      extractedPages (appState (snd r)) = []
      /\ effects (snd r) = effects s /\ world (snd r) = world s)
  /\ (mode config = RANGE -> rangeEnd config < rangeStart config ->
      pagesToProcess config (totalPages (appState s)) = []).
Proof.
  intros r. subst r. split; [|split; [|split]].
  - now destruct (startProcessing_run config s) as (s' & -> & _).
  - now destruct (startProcessing_run config s) as (s' & -> & Hst & _).
  - intros Hnil. rewrite (startProcessing_no_page config s Hnil). now cbn.
  - intros Hmode Hlt. rewrite pagesToProcess_interval, Hmode.
    now apply interval_empty.
Qed.


(** ** The progress counters *)

Lemma forLoop_S {L} (body : nat -> L -> M L) n i locals s :
  forLoop (S n) i body locals s =
  match body i locals s with
  | (inr a, s') => forLoop n (S i) body a s'
  | (inl e, s') => (inl e, s')
  end.
Proof. reflexivity. Qed.

Lemma forLoop_snoc {L} (body : nat -> L -> M L) (n : nat) :
  forall i locals s,
    forLoop (S n) i body locals s =
    match forLoop n i body locals s with
    | (inr x, s') => body (i + n)%nat x s'
    | (inl e, s') => (inl e, s')
    end.
Proof.
  induction n as [|n IH]; intros i locals s.
  - rewrite forLoop_S. cbn [forLoop]. unfold ret. rewrite Nat.add_0_r.
    destruct (body i locals s) as [[e|a] s']; reflexivity.
  - rewrite forLoop_S, (forLoop_S body n i).
    destruct (body i locals s) as [[e|a] s']; [reflexivity|].
    rewrite IH, Nat.add_succ_r. reflexivity.
Qed.

Lemma afterIterations_eq config j s :
  afterIterations config j s =
  snd (forLoop j 0
         (processPage (pdfDoc (appState s)) (pagesToProcess config (totalPages (appState s))))
         [] (loopEntry config s)).
Proof. reflexivity. Qed.


(** The first [j] iterations of a run attempt the first [j] pages. *)
Lemma afterIterations_prefix config s j :
  let pages := pagesToProcess config (totalPages (appState s)) in
  let doc := pdfDoc (appState s) in
  (j <= length pages)%nat ->
  exists acc,
    forLoop j 0 (processPage doc pages) [] (loopEntry config s) =
      (inr acc, afterIterations config j s)
    /\ world (afterIterations config j s) = worldAfter doc (firstn j pages) (world s)
    /\ extractedPages (appState (afterIterations config j s)) =
       succeeded doc (firstn j pages) (world s)
    /\ visited (effects (afterIterations config j s)) =
       visited (effects s) ++ firstn j pages.
Proof.
  intros pages doc Hj. rewrite afterIterations_eq. fold pages doc.
  destruct (pageLoop_run doc (firstn j pages) (skipn j pages) [] []
              (loopEntry config s))
    as (s' & Hrun & Hpages & _ & Hworld & Hvis & _).
  cbn [app length] in Hrun.
  rewrite firstn_skipn, length_firstn, Nat.min_l in Hrun by assumption.
  rewrite Hrun. cbn [snd]. eexists. split; [reflexivity|].
  rewrite Hworld, Hpages, Hvis. repeat split.
Qed.

Lemma afterIterations_step config s j :
  let pages := pagesToProcess config (totalPages (appState s)) in
  let doc := pdfDoc (appState s) in
  (j < length pages)%nat ->
  exists acc,
    afterIterations config (S j) s =
    snd (processPage doc pages j acc (afterIterations config j s)).
Proof.
  intros pages doc Hj.
  destruct (afterIterations_prefix config s j) as (acc & Hrun & _); [fold pages; lia|].
  fold pages doc in Hrun. exists acc.
  rewrite (afterIterations_eq config (S j)). fold pages doc.
  rewrite forLoop_snoc, Hrun. reflexivity.
Qed.

(** The total of the progress counters is the number of pages of the run
    from the entry of the loop on. *)
Lemma afterIterations_total config s j :
  let pages := pagesToProcess config (totalPages (appState s)) in
  (j <= length pages)%nat ->
  total (processingProgress (appState (afterIterations config j s))) =
  Z.of_nat (length pages).
Proof.
  intros pages. induction j as [|j IH]; intros Hj; [reflexivity|].
  destruct (afterIterations_step config s j) as (acc & ->); [fold pages; lia|].
  fold pages.
  destruct (attempt (pdfDoc (appState s)) (nth j pages 0)
              (world (afterIterations config j s))) as [[e|[img t]] w'] eqn:Hat.
  - destruct (processPage_failure _ _ _ acc _ _ _ Hat) as (log & -> & _).
    cbn. apply IH. lia.
  - rewrite (processPage_success _ _ _ acc _ _ _ _ Hat). reflexivity.
Qed.

(** A run is its page loop followed by the change of status. *)
Lemma startProcessing_afterIterations config s :
  snd (startProcessing config s) =
  let s' := afterIterations config
              (length (pagesToProcess config (totalPages (appState s)))) s in
  {| appState := with_status COMPLETED (appState s');
     world := world s';
     effects := effects s' |}.
Proof.
  destruct (afterIterations_prefix config s
              (length (pagesToProcess config (totalPages (appState s)))))
    as (acc & Hrun & _); [lia|].
  unfold startProcessing, bind at 1 2 3, getState.
  rewrite startProcessing_begin_eq.
  unfold loopEntry in Hrun. rewrite startProcessing_begin_eq in Hrun.
  cbn [snd] in Hrun. rewrite Hrun. reflexivity.
Qed.


(** ** Strings *)

Lemma startsWith_spec (p s : jsstring) :
  startsWith p s = true <-> exists post, s = p ++ post.
Proof.
  revert s. induction p as [|a p IH]; intros s; cbn [startsWith].
  - split; [intros _; now exists s|reflexivity].
  - destruct s as [|b s].
    + split; [discriminate|]. intros (post & H). discriminate.
    + rewrite andb_true_iff, N.eqb_eq, IH. split.
      * intros (-> & post & ->). now exists post.
      * intros (post & H). injection H as -> ->. split; [reflexivity|now exists post].
Qed.

Lemma includes_spec (p s : jsstring) : includes p s = true <-> occursIn p s.
Proof.
  unfold occursIn. induction s as [|b s IH]; cbn [includes].
  - rewrite orb_false_r, startsWith_spec. split.
    + intros (post & H). now exists [], post.
    + intros (pre & post & H). destruct pre; [now exists post|discriminate].
  - rewrite orb_true_iff, startsWith_spec, IH. split.
    + intros [(post & ->)|(pre & post & ->)].
      * now exists [], post.
      * now exists (b :: pre), post.
    + intros ([|c pre] & post & H).
      * left. now exists post.
      * injection H as -> ->. right. now exists pre, post.
Qed.

Lemma occursIn_nil_inv (p : jsstring) : occursIn p [] -> p = [].
Proof.
  intros (pre & post & H). symmetry in H.
  apply app_eq_nil in H. destruct H as [_ H]. now apply app_eq_nil in H.
Qed.

Lemma occursIn_cons (c : N) (p s : jsstring) : occursIn p s -> occursIn p (c :: s).
Proof. intros (pre & post & ->). now exists (c :: pre), post. Qed.

(** A substring without line feed of [x ++ \n ++ y] lies in [x] or in [y]. *)
Lemma occursIn_across_LF (p x y : jsstring) :
  p <> [] -> ~ In LF p -> occursIn p (x ++ LF :: y) -> occursIn p x \/ occursIn p y.
Proof.
  intros Hne Hlf (pre & post & H).
  symmetry in H. apply app_eq_app in H. destruct H as (l & [[-> H]|[-> H]]).
  - destruct l as [|c l].
    + cbn in H. destruct p as [|c p]; [easy|]. injection H as <- _.
      exfalso. apply Hlf. now left.
    + injection H as <- ->. right. now exists l, post.
  - apply app_eq_app in H. destruct H as (l2 & [[-> H]|[-> ->]]).
    + destruct l2 as [|c l2].
      * left. exists pre, []. now rewrite !app_nil_r.
      * injection H as <- _. exfalso. apply Hlf. apply in_or_app. right. now left.
    + left. now exists pre, l2.
Qed.

(** Two splittings of a list around an element that occurs once in it are
    the same. *)
Lemma split_at_unique (a : N) (l1 l2 l3 l4 : jsstring) :
  ~ In a l1 -> ~ In a l2 -> l3 ++ a :: l4 = l1 ++ a :: l2 -> l3 = l1 /\ l4 = l2.
Proof.
  revert l3. induction l1 as [|c l1 IH]; intros l3 H1 H2 H.
  - destruct l3 as [|b l3]; cbn in H.
    + injection H as ->. easy.
    + injection H as -> H. exfalso. apply H2. rewrite <- H.
      apply in_or_app. right. now left.
  - destruct l3 as [|b l3]; cbn in H.
    + injection H as -> _. exfalso. apply H1. now left.
    + injection H as -> H. destruct (IH l3) as [-> ->]; try assumption; [|easy].
      intros Hin. apply H1. now right.
Qed.


Lemma uint_chars_digits (d : Decimal.uint) (c : N) :
  In c (uint_chars d) -> (48 <= c <= 57)%N.
Proof.
  induction d; cbn [uint_chars]; intros H; try easy;
    (destruct H as [<-|H]; [unfold digit; lia|now apply IHd]).
Qed.

Lemma numberToString_chars (n : Z) (c : N) :
  In c (numberToString n) -> c = 45%N \/ (48 <= c <= 57)%N.
Proof.
  unfold numberToString. destruct (Z.to_int n) as [d|d].
  - intros H. right. eapply uint_chars_digits, H.
  - intros [<-|H]; [now left|right; eapply uint_chars_digits, H].
Qed.

Lemma uint_chars_inj (d d' : Decimal.uint) : uint_chars d = uint_chars d' -> d = d'.
Proof.
  revert d'. induction d; destruct d'; cbn [uint_chars]; intros H;
    try reflexivity; try discriminate H;
    injection H as H; f_equal; now apply IHd.
Qed.

Lemma numberToString_inj (n k : Z) : numberToString n = numberToString k -> n = k.
Proof.
  unfold numberToString. intros H. apply DecimalZ.to_int_inj.
  destruct (Z.to_int n) as [d|d], (Z.to_int k) as [d'|d'].
  - f_equal. now apply uint_chars_inj.
  - exfalso. assert (Hin : In 45%N (uint_chars d)) by (rewrite H; now left).
    apply uint_chars_digits in Hin. lia.
  - exfalso. assert (Hin : In 45%N (uint_chars d')) by (rewrite <- H; now left).
    apply uint_chars_digits in Hin. lia.
  - injection H as H. f_equal. now apply uint_chars_inj.
Qed.

Lemma marker_eq (k : Z) :
  marker k = [45; 45; 45; 32]%N ++ 80%N :: [97; 103; 101; 32]%N
             ++ numberToString k ++ 32%N :: [45; 45; 45]%N.
Proof. reflexivity. Qed.

Lemma pageText_app_eq (n : Z) (t r : jsstring) :
  pageText n t ++ r = [] ++ LF :: ([] ++ LF :: (marker n ++ LF :: ([] ++ LF :: (t ++ r)))).
Proof.
  unfold pageText, marker.
  repeat (progress (rewrite <- ?app_assoc; cbn [app])). reflexivity.
Qed.

Lemma marker_chars (k : Z) (c : N) : In c (marker k) -> (32 <= c)%N.
Proof.
  rewrite marker_eq. cbn [app In]. intros H.
  repeat (destruct H as [<-|H]; [lia|]).
  apply in_app_or in H. destruct H as [H|H].
  - apply numberToString_chars in H. lia.
  - cbn [In] in H. repeat (destruct H as [<-|H]; [lia|]). easy.
Qed.

Lemma marker_no_LF (k : Z) : ~ In LF (marker k).
Proof. intros H. apply marker_chars in H. unfold LF in H. lia. Qed.

Lemma marker_nonempty (k : Z) : marker k <> [].
Proof. rewrite marker_eq. discriminate. Qed.

(** The marker of a page occurs in the marker of no other page. *)
Lemma occursIn_marker_inj (k n : Z) : occursIn (marker k) (marker n) -> k = n.
Proof.
  intros (pre & post & H).
  assert (H1 : (pre ++ [45; 45; 45; 32]%N) ++ 80%N ::
                 ([97; 103; 101; 32]%N ++ numberToString k ++ 32%N :: [45; 45; 45]%N ++ post)
               = [45; 45; 45; 32]%N ++ 80%N ::
                 ([97; 103; 101; 32]%N ++ numberToString n ++ 32%N :: [45; 45; 45]%N)).
  { rewrite <- marker_eq, H, marker_eq.
    repeat (progress (rewrite <- ?app_assoc; cbn [app])). reflexivity. }
  assert (Hnum : forall m, ~ In 80%N (numberToString m) /\ ~ In 32%N (numberToString m)).
  { intros m. split; intros Hin; apply numberToString_chars in Hin; lia. }
  apply split_at_unique in H1.
  - destruct H1 as [_ H1]. apply app_inv_head in H1.
    apply split_at_unique in H1.
    + destruct H1 as [H1 _]. now apply numberToString_inj.
    + apply Hnum.
    + cbn. intros Hin. repeat (destruct Hin as [Hin|Hin]; [discriminate Hin|]). exact Hin.
  - cbn. intros Hin. repeat (destruct Hin as [Hin|Hin]; [discriminate Hin|]). exact Hin.
  - cbn [In app]. intros Hin.
    repeat (destruct Hin as [Hin|Hin]; [discriminate Hin|]).
    apply in_app_or in Hin. destruct Hin as [Hin|Hin]; [exact (proj1 (Hnum n) Hin)|].
    cbn in Hin. repeat (destruct Hin as [Hin|Hin]; [discriminate Hin|]). exact Hin.
Qed.


Lemma blocksOf_head (l : list ExtractedPage) :
  blocksOf l = [] \/ exists y, blocksOf l = LF :: y.
Proof.
  destruct l as [|page l]; [now left|right].
  rewrite blocksOf_cons, pageText_app_eq. cbn [app]. eauto.
Qed.

(** A substring without line feed of the text of a list of records lies
    in the marker or in the recognised text of one of the records. *)
Lemma occursIn_blocksOf (p : jsstring) (l : list ExtractedPage) :
  p <> [] -> ~ In LF p -> occursIn p (blocksOf l) ->
  exists page, In page l
    /\ (occursIn p (marker (pageNumber page)) \/ occursIn p (text page)).
Proof.
  intros Hne Hlf. induction l as [|page l IH]; intros H.
  - apply occursIn_nil_inv in H. contradiction.
  - rewrite blocksOf_cons, pageText_app_eq in H.
    assert (Hnil : ~ occursIn p []) by (intros Hn; now apply occursIn_nil_inv in Hn).
    apply (occursIn_across_LF p [] _ Hne Hlf) in H. destruct H as [H|H]; [easy|].
    apply (occursIn_across_LF p [] _ Hne Hlf) in H. destruct H as [H|H]; [easy|].
    apply (occursIn_across_LF p (marker (pageNumber page)) _ Hne Hlf) in H.
    destruct H as [H|H]; [exists page; split; [now left|now left]|].
    apply (occursIn_across_LF p [] _ Hne Hlf) in H. destruct H as [H|H]; [easy|].
    assert (Hrest : occursIn p (text page) \/ occursIn p (blocksOf l)).
    { destruct (blocksOf_head l) as [Hb|(y & Hb)]; rewrite Hb in H.
      - rewrite app_nil_r in H. now left.
      - apply (occursIn_across_LF p (text page) y Hne Hlf) in H.
        destruct H as [H|H]; [now left|right].
        rewrite Hb. now apply occursIn_cons. }
    destruct Hrest as [Ht|Hb].
    + exists page. split; [now left|now right].
    + destruct (IH Hb) as (page' & Hin & Hor). exists page'. split; [now right|assumption].
Qed.

Lemma StronglySorted_lt_NoDup (l : list Z) : StronglySorted Z.lt l -> NoDup l.
Proof.
  induction 1 as [|a l Hs IH Hall]; constructor; [|assumption].
  intros Hin. rewrite Forall_forall in Hall. specialize (Hall a Hin). lia.
Qed.

(** *** The claims on failures and progress *)

(** C2 (amended). When a service fails for the page at index [j] of the
    sequence, in the world the earlier attempts left, the run leaves no
    record with this page number and appends no block for it: the editor
    text is made of the blocks of the records left, so that it contains the
    marker of the page only if the recognised text of one of these records
    contains it; and the run still asks the renderer for every page of the
    sequence, in order, returns, and ends COMPLETED. *)
Theorem failed_page_is_skipped (config : ProcessingConfig) (s : Store) (j : nat) :
  let pages := pagesToProcess config (totalPages (appState s)) in
  let doc := pdfDoc (appState s) in
  let k := nth j pages 0 in
  let final := snd (startProcessing config s) in
  (j < length pages)%nat ->
  (exists e, fst (attempt doc k (world (afterIterations config j s))) = inl e) ->
  (forall page, In page (extractedPages (appState final)) -> pageNumber page <> k)
  /\ editorText (appState final) = blocksOf (extractedPages (appState final))
  /\ ((forall page, In page (extractedPages (appState final)) ->
         includes (marker k) (text page) = false) ->
      includes (marker k) (editorText (appState final)) = false)
  /\ visited (effects final) = visited (effects s) ++ pages
  /\ fst (startProcessing config s) = inr tt
  /\ status (appState final) = COMPLETED.
Proof.
  intros pages doc k final Hj (e & Hfail). subst final.
  destruct (startProcessing_run config s)
    as (s' & Hrun & Hst & Hpages & Htext & _ & Hvis & _).
  fold pages doc in Hpages, Htext, Hvis. rewrite Hrun. cbn [fst snd].
  assert (Hnot : forall page, In page (extractedPages (appState s')) ->
                              pageNumber page <> k).
  { intros page Hin Hk. rewrite Hpages in Hin. apply succeeded_In in Hin.
    destruct Hin as (j' & Hj' & Hn & Ha).
    assert (j' = j) as ->.
    { apply (proj1 (NoDup_nth pages 0)); try assumption; [|unfold k in Hk; congruence].
      apply StronglySorted_lt_NoDup, pagesToProcess_sorted. }
    destruct (afterIterations_prefix config s j) as (_ & _ & Hw & _); [fold pages; lia|].
    fold pages doc in Hw. rewrite Hw in Hfail. fold k in Ha. congruence. }
  repeat split; try assumption.
  - now rewrite Htext, Hpages.
  - intros Htexts. destruct (includes (marker k) (editorText (appState s'))) eqn:Hinc;
      [exfalso|reflexivity].
    apply includes_spec in Hinc. rewrite Htext, <- Hpages in Hinc.
    apply occursIn_blocksOf in Hinc; [|apply marker_nonempty|apply marker_no_LF].
    destruct Hinc as (page & Hin & [Hm|Ht]).
    + apply occursIn_marker_inj in Hm. now apply (Hnot page Hin).
    + apply includes_spec in Ht. rewrite (Htexts page Hin) in Ht. discriminate.
Qed.

(** C8 (amended). After the iteration at index [i] of the page loop the
    total of the progress counters is the number of pages of the sequence;
    when render and OCR of the page succeeded the current counter is
    [i + 1], and when one of them failed the counters are what they were
    before the iteration. *)
Theorem progress_after_page (config : ProcessingConfig) (s : Store) (i : nat) :
  let pages := pagesToProcess config (totalPages (appState s)) in
  let doc := pdfDoc (appState s) in
  let before := afterIterations config i s in
  let after := afterIterations config (S i) s in
  (i < length pages)%nat ->
  total (processingProgress (appState after)) = Z.of_nat (length pages)
  /\ match fst (attempt doc (nth i pages 0) (world before)) with
     | inr _ => current (processingProgress (appState after)) = Z.of_nat i + 1
     | inl _ => processingProgress (appState after) = processingProgress (appState before)
     end.
Proof.
  intros pages doc before after Hi. split.
  - apply afterIterations_total. fold pages. lia.
  - subst after. destruct (afterIterations_step config s i Hi) as (acc & ->).
    fold pages doc before.
    destruct (attempt doc (nth i pages 0) (world before)) as [[e|[img t]] w'] eqn:Hat;
      cbn [fst].
    + destruct (processPage_failure _ _ _ acc _ _ _ Hat) as (log & -> & _). reflexivity.
    + rewrite (processPage_success _ _ _ acc _ _ _ _ Hat). reflexivity.
Qed.


(** ** Trimming *)

Lemma trimStart_nil_iff (s : jsstring) :
  trimStart s = [] <-> forallb isWhiteSpace s = true.
Proof.
  induction s as [|c s IH]; cbn [trimStart forallb]; [easy|].
  destruct (isWhiteSpace c); cbn [andb]; [assumption|]. split; discriminate.
Qed.

Lemma trimStart_head (s : jsstring) (c : N) (t : jsstring) :
  trimStart s = c :: t -> isWhiteSpace c = false.
Proof.
  induction s as [|b s IH]; cbn [trimStart]; [discriminate|].
  destruct (isWhiteSpace b) eqn:Hb; [assumption|].
  intros H. injection H as -> _. assumption.
Qed.

(** The trimmed text is empty exactly when the text is empty or made of
    white space only. *)
Lemma trim_nil_iff (s : jsstring) : trim s = [] <-> forallb isWhiteSpace s = true.
Proof.
  unfold trim, trimEnd. split.
  - intros H. apply (f_equal (@rev N)) in H. rewrite rev_involutive in H.
    cbn [rev] in H. apply trimStart_nil_iff in H.
    destruct (trimStart s) as [|c t] eqn:E; [now apply trimStart_nil_iff|].
    apply trimStart_head in E. rewrite forallb_forall in H.
    rewrite (H c) in E; [discriminate|]. apply -> in_rev. now left.
  - intros H. apply trimStart_nil_iff in H. rewrite H. reflexivity.
Qed.

(** ** The claims on analysis, reset and the start of a run *)

(** C5. When the editor text is empty or made of white space only,
    [handleAnalyze] returns at its guard and leaves the whole store as it
    was: no call of [analyzeText] is logged or made, and the analysis result
    and every other cell are unchanged; the same holds of the handler
    suspended on its request, which puts no promise in flight. *)
Theorem analyze_blank_text_is_noop (s : Store) :
  forallb isWhiteSpace (editorText (appState s)) = true ->
  handleAnalyze s = (inr tt, s)
  /\ forall promises,
       requestAnalysis {| store := s; inFlight := promises |} =
       {| store := s; inFlight := promises |}.
Proof.
  intros Hblank. apply trim_nil_iff in Hblank.
  assert (Hbegin : handleAnalyze_begin s = (inr None, s)).
  { unfold handleAnalyze_begin, bind, getState. now rewrite Hblank. }
  split.
  - unfold handleAnalyze, bind. now rewrite Hbegin.
  - intros promises. unfold requestAnalysis. cbn [store inFlight].
    now rewrite Hbegin.
Qed.

(** C7 (amended). Reset empties the extracted pages and the editor text,
    unsets the analysis result, the current file and the document, and sets
    the status to IDLE; every other cell, the progress counters among them,
    keeps its value, and nothing outside the state is touched. *)
Theorem reset_clears_session_data (s : Store) :
  handleReset s =
  (inr tt,
   {| appState :=
        {| status := IDLE;
           darkMode := darkMode (appState s);
           currentFile := None;
           pdfDoc := None;
           totalPages := totalPages (appState s);
           extractedPages := [];
           processingProgress := processingProgress (appState s);
           activeTab := activeTab (appState s);
           editorText := [];
           analysis := None;
           isAnalyzing := isAnalyzing (appState s);
           showConfig := showConfig (appState s) |};
      world := world s;
      effects := effects s |}).
Proof. reflexivity. Qed.

(** C10. At the entry of its page loop a run has emptied the extracted
    pages and the editor text, has called no service yet, and has kept the
    analysis result; at its end the analysis result is still the one stored
    before the run, next to the records and the text of the pages of this
    run: a result stored before the run stays beside them. *)
Theorem run_clears_pages_and_text_keeps_analysis (config : ProcessingConfig) (s : Store) :
  let entry := loopEntry config s in
  let final := snd (startProcessing config s) in
  let ok := succeeded (pdfDoc (appState s))
              (pagesToProcess config (totalPages (appState s))) (world s) in
  (extractedPages (appState entry) = []
   /\ editorText (appState entry) = []
   /\ analysis (appState entry) = analysis (appState s)
   /\ effects entry = effects s /\ world entry = world s)
  /\ analysis (appState final) = analysis (appState s)
  /\ extractedPages (appState final) = ok
  /\ editorText (appState final) = blocksOf ok
  /\ (forall result, analysis (appState s) = Some result ->
        analysis (appState final) = Some result
        /\ extractedPages (appState final) = ok).
Proof.
  intros entry final ok. subst entry final ok.
  destruct (startProcessing_run config s)
    as (s' & -> & _ & Hpages & Htext & _ & _ & Han & _).
  cbn [snd]. repeat split; try assumption. congruence.
Qed.


(** ** Sessions *)

Lemma status_eqb_eq (a b : AppStatus) : status_eqb a b = true <-> a = b.
Proof. destruct a, b; cbn; split; congruence. Qed.

(** What [handleFileSelect] leaves of the session data. *)
Lemma handleFileSelect_cells (file : File) (s : Store) :
  let st' := appState (snd (handleFileSelect file s)) in
  (status st' = IDLE \/ status st' = ERROR)
  /\ extractedPages st' = extractedPages (appState s)
  /\ editorText st' = editorText (appState s)
  /\ analysis st' = analysis (appState s).
Proof.
  unfold handleFileSelect, tryCatch, bind, call, await; cbn.
  destruct (getDocument file (world s)) as [[e|doc] w]; cbn; auto.
Qed.

(** Sending the analysis request leaves the session data as it is. *)
Lemma requestAnalysis_cells (ss : Session) :
  let st := appState (store ss) in
  let st' := appState (store (requestAnalysis ss)) in
  status st' = status st
  /\ extractedPages st' = extractedPages st
  /\ editorText st' = editorText st
  /\ analysis st' = analysis st.
Proof.
  unfold requestAnalysis, handleAnalyze_begin, bind, getState, call; cbn.
  destruct (negb (truthy (trim (editorText (appState (store ss)))))); cbn; [auto|].
  destruct (analyzeText (editorText (appState (store ss))) (world (store ss)))
    as [p w]; cbn; auto.
Qed.

(** The settling of an analysis request changes neither the status, nor
    the records, nor the editor text. *)
Lemma handleAnalyze_settled_cells (p : Exn + AnalysisResult) (s : Store) :
  let st' := appState (snd (handleAnalyze_settled p s)) in
  status st' = status (appState s)
  /\ extractedPages st' = extractedPages (appState s)
  /\ editorText st' = editorText (appState s).
Proof. destruct p as [e|r]; cbn; auto. Qed.

Lemma dispatch_invariant (e : UIEvent) (ss : Session) :
  onScreen e (appState (store ss)) = true ->
  sessionInvariant (appState (store ss)) ->
  sessionInvariant (appState (store (dispatch e ss))).
Proof.
  unfold sessionInvariant. intros Hon [Hsorted Hidle].
  destruct e; cbn [onScreen] in Hon;
    repeat match type of Hon with
           | (_ && _)%bool = true => apply andb_true_iff in Hon; destruct Hon as [Hon ?]
           end;
    try apply status_eqb_eq in Hon.
  - cbn. auto.
  - cbn. split; [constructor|auto].
  - cbn [dispatch exec store].
    destruct (handleFileSelect_cells file (store ss)) as (_ & Hp & Ht & _).
    cbn zeta in Hp, Ht. rewrite Hp, Ht.
    destruct (Hidle Hon) as [-> ->]. split; [constructor|auto].
  - cbn [dispatch exec store].
    destruct (startProcessing_run config (store ss))
      as (s' & -> & Hst & Hpages & _). cbn [snd]. rewrite Hpages, Hst.
    split; [apply succeeded_sorted, pagesToProcess_sorted|discriminate].
  - cbn. auto.
  - assert (Hplain : forall t,
              sessionInvariant (appState (store (exec (setActiveTab t) ss))))
      by (intros t; unfold sessionInvariant; cbn; split;
          [assumption|rewrite Hon; discriminate]).
    destruct tab; try apply Hplain.
    cbn [dispatch]. destruct (isNone _); [|apply Hplain].
    destruct (requestAnalysis_cells (exec (setActiveTab TabAnalysis) ss))
      as (Hs & Hp & Ht & _). cbn zeta in Hs, Hp, Ht. rewrite Hs, Hp, Ht.
    apply Hplain.
  - cbn. auto.
  - cbn. auto.
  - cbn. split; [assumption|rewrite Hon; discriminate].
  - cbn [dispatch].
    destruct (requestAnalysis_cells ss) as (Hs & Hp & Ht & _).
    cbn zeta in Hs, Hp, Ht. rewrite Hs, Hp, Ht. auto.
Qed.

Lemma reachable_invariant (ss : Session) :
  reachable ss -> sessionInvariant (appState (store ss)).
Proof.
  induction 1 as [w|ss ev ss' Hreach IH Hstep].
  - cbn. split; [constructor|auto].
  - destruct ev as [e|n]; cbn [step] in Hstep.
    + destruct (onScreen e (appState (store ss))) eqn:Hon; [|discriminate].
      injection Hstep as <-. now apply dispatch_invariant.
    + destruct (nth_error (inFlight ss) n) as [p|]; [|discriminate].
      injection Hstep as <-. cbn [store].
      destruct (handleAnalyze_settled_cells p (store ss)) as (Hs & Hp & Ht).
      cbn zeta in Hs, Hp, Ht. unfold sessionInvariant. rewrite Hs, Hp, Ht.
      apply IH.
Qed.


(** ** The archive *)

Lemma split_no_sep (sep : N) (s : jsstring) : ~ In sep s -> split sep s = [s].
Proof.
  induction s as [|c s IH]; intros Hin; cbn [split]; [reflexivity|].
  destruct (N.eqb_spec c sep) as [->|Hne]; [exfalso; apply Hin; now left|].
  rewrite IH; [reflexivity|]. intros H. apply Hin. now right.
Qed.

Lemma split_app_sep (sep : N) (prefix rest : jsstring) :
  ~ In sep prefix -> split sep (prefix ++ sep :: rest) = prefix :: split sep rest.
Proof.
  induction prefix as [|c prefix IH]; intros Hin; cbn [app split].
  - now rewrite N.eqb_refl.
  - destruct (N.eqb_spec c sep) as [->|Hne]; [exfalso; apply Hin; now left|].
    rewrite IH; [reflexivity|]. intros H. apply Hin. now right.
Qed.

Lemma memberOf_name_inj (p q : ExtractedPage) :
  entryName (memberOf p) = entryName (memberOf q) -> pageNumber p = pageNumber q.
Proof.
  cbn [memberOf entryName]. intros H.
  apply app_inv_head in H. apply app_inv_tail in H. now apply numberToString_inj.
Qed.

Lemma zipFile_fresh (e : ZipEntry) (zip : list ZipEntry) :
  (forall e', In e' zip -> entryName e' <> entryName e) -> zipFile e zip = zip ++ [e].
Proof.
  induction zip as [|e' zip IH]; intros Hfresh; cbn [zipFile app]; [reflexivity|].
  destruct (list_eq_dec N.eq_dec (entryName e') (entryName e)) as [Heq|_].
  - exfalso. apply (Hfresh e'); [now left|assumption].
  - rewrite IH; [reflexivity|]. intros e'' Hin. apply Hfresh. now right.
Qed.

(** Pages with distinct numbers are added one after the other. *)
Lemma fold_addPage (pages : list ExtractedPage) :
  forall zip,
    NoDup (map pageNumber pages) ->
    (forall e page, In e zip -> In page pages -> entryName e <> entryName (memberOf page)) ->
    fold_left addPage pages zip = zip ++ map memberOf pages.
Proof.
  induction pages as [|page pages IH]; intros zip Hnd Hfresh; cbn [fold_left map].
  - now rewrite app_nil_r.
  - inversion Hnd as [|? ? Hnotin Hnd']; subst.
    change (addPage zip page) with (zipFile (memberOf page) zip).
    rewrite zipFile_fresh by (intros e' Hin; apply Hfresh; [assumption|now left]).
    rewrite IH, <- app_assoc; [reflexivity|assumption|].
    intros e q Hin Hq. apply in_app_or in Hin. destruct Hin as [Hin|[<-|[]]].
    + apply Hfresh; [assumption|now right].
    + intros Heq. apply memberOf_name_inj in Heq. apply Hnotin. rewrite Heq.
      now apply in_map.
Qed.

Lemma memberOf_names_NoDup (pages : list ExtractedPage) :
  NoDup (map pageNumber pages) -> NoDup (map entryName (map memberOf pages)).
Proof.
  induction pages as [|page pages IH]; cbn [map]; intros Hnd; [constructor|].
  inversion Hnd as [|? ? Hnotin Hnd']; subst. constructor; [|now apply IH].
  intros Hin. rewrite map_map in Hin. apply in_map_iff in Hin.
  destruct Hin as (q & Heq & Hq). apply memberOf_name_inj in Heq.
  apply Hnotin. rewrite <- Heq. now apply in_map.
Qed.

(** *** The claims on export and on file selection *)

(** C6. In every session a user can bring about, the download of the
    images saves an archive whose members are, in order, one per extracted
    page: the member of a page is named [page_N.jpg] after its page number,
    whatever the image URL says of the encoding, no two members share a
    name, and the data of a member, stored as base64, is what follows the
    comma of the page's data URL. *)
Theorem archive_has_one_member_per_page (ss : Session) :
  reachable ss ->
  let st := appState (store ss) in
  let pages := extractedPages st in
  effects (store (dispatch ClickDownloadImages ss)) =
    effects (store ss) ++
    [SaveAs (ZipBlob (map memberOf pages))
            (orUndefined (baseName (currentFile st)) ++ lit "_images.zip")]
  /\ length (map memberOf pages) = length pages
  /\ NoDup (map entryName (map memberOf pages))
  /\ (forall page,
        entryName (memberOf page) =
          lit "page_" ++ numberToString (pageNumber page) ++ lit ".jpg"
        /\ entryBase64 (memberOf page) = true)
  /\ (forall page prefix payload,
        imageUrl page = prefix ++ 44%N :: payload ->
        ~ In 44%N prefix -> ~ In 44%N payload ->
        entryData (memberOf page) = Some payload).
Proof.
  intros Hreach st pages.
  assert (Hnd : NoDup (map pageNumber pages))
    by (apply StronglySorted_lt_NoDup, (reachable_invariant ss Hreach)).
  repeat split.
  - cbn. fold st pages. rewrite fold_addPage; [reflexivity|assumption|easy].
  - apply length_map.
  - now apply memberOf_names_NoDup.
  - intros page prefix payload Hurl Hprefix Hpayload.
    cbn [memberOf entryData]. rewrite Hurl, split_app_sep, split_no_sep by assumption.
    reflexivity.
Qed.

(** C9 (amended). [handleFileSelect] resets none of the extracted pages,
    the editor text and the analysis result: it leaves the three as they
    were, in every store. When a file is selected in a session a user can
    bring about, with the uploader on screen, the extracted pages and the
    editor text are therefore empty afterwards, as they were before, and the
    analysis result is the one that was stored. *)
Theorem file_selection_leaves_session_data (ss : Session) (file : File) :
  reachable ss ->
  onScreen (FileSelected file) (appState (store ss)) = true ->
  let st' := appState (store (dispatch (FileSelected file) ss)) in
  (extractedPages st' = []
   /\ editorText st' = []
   /\ analysis st' = analysis (appState (store ss)))
  /\ (forall s : Store,
        let st1 := appState (snd (handleFileSelect file s)) in
        extractedPages st1 = extractedPages (appState s)
        /\ editorText st1 = editorText (appState s)
        /\ analysis st1 = analysis (appState s)).
Proof.
  intros Hreach Hon st'. subst st'. split.
  - cbn [dispatch exec store].
    destruct (handleFileSelect_cells file (store ss)) as (_ & Hp & Ht & Ha).
    cbn zeta in Hp, Ht, Ha. rewrite Hp, Ht, Ha.
    cbn [onScreen] in Hon. apply andb_true_iff in Hon. destruct Hon as [Hon _].
    apply status_eqb_eq in Hon.
    destruct (reachable_invariant ss Hreach) as [_ Hidle].
    destruct (Hidle Hon) as [-> ->]. auto.
  - intros s. apply handleFileSelect_cells.
Qed.

Lemma replay_reachable (evs : list Event) :
  forall ss ss', reachable ss -> replay evs ss = Some ss' -> reachable ss'.
Proof.
  induction evs as [|ev evs IH]; intros ss ss' Hreach Hrun; cbn [replay] in Hrun.
  - now injection Hrun as <-.
  - destruct (step ev ss) as [ss1|] eqn:Hstep; [|discriminate].
    eapply IH; [|eassumption]. eapply reachable_step; eassumption.
Qed.


(** ** The effects of a run *)

Lemma processPage_returns doc pages i acc s :
  exists acc', fst (processPage doc pages i acc s) = inr acc'.
Proof.
  destruct (attempt doc (nth i pages 0) (world s)) as [[e|[img t]] w'] eqn:Hat.
  - destruct (processPage_failure _ _ _ acc _ _ _ Hat) as (log & -> & _).
    now eexists.
  - rewrite (processPage_success _ _ _ acc _ _ _ _ Hat). now eexists.
Qed.

Lemma processPage_effects doc pages i acc s :
  effects (snd (processPage doc pages i acc s)) =
    effects s ++ pageLog doc (nth i pages 0) (world s)
  /\ world (snd (processPage doc pages i acc s)) =
     snd (attempt doc (nth i pages 0) (world s)).
Proof.
  unfold attempt, pageLog, errorMessage, processPage, tryCatch, bind, call, await; cbn.
  destruct (renderPageAsImage doc (nth i pages 0) (world s)) as [[e|img] w1]; cbn.
  - split; [now rewrite <- app_assoc|reflexivity].
  - destruct (performOCR img w1) as [[e|t] w2]; cbn;
      (split; [now rewrite <- !app_assoc|reflexivity]).
Qed.

Lemma pageLoop_log doc (mid post : list Z) :
  forall (pre : list Z) (acc : jsstring) (s : Store),
    effects (snd (forLoop (length mid) (length pre)
                    (processPage doc (pre ++ mid ++ post)) acc s)) =
    effects s ++ runLog doc mid (world s).
Proof.
  induction mid as [|p mid IH]; intros pre acc s.
  - cbn. now rewrite app_nil_r.
  - change ((p :: mid) ++ post) with (p :: mid ++ post).
    assert (Hnth : nth (length pre) (pre ++ p :: mid ++ post) 0 = p)
      by (rewrite app_nth2, Nat.sub_diag by lia; reflexivity).
    cbn [length runLog]. rewrite forLoop_S.
    destruct (processPage_returns doc (pre ++ p :: mid ++ post) (length pre) acc s)
      as (acc' & Hret).
    destruct (processPage_effects doc (pre ++ p :: mid ++ post) (length pre) acc s)
      as (Heff & Hworld).
    destruct (processPage doc (pre ++ p :: mid ++ post) (length pre) acc s)
      as [[e|a] s1]; [discriminate|].
    cbn [snd] in Heff, Hworld. rewrite Hnth in Heff, Hworld.
    specialize (IH (pre ++ [p]) a s1).
    rewrite <- app_assoc, length_app, Nat.add_1_r in IH. cbn [app] in IH.
    rewrite IH, Heff, Hworld, <- app_assoc. reflexivity.
Qed.

(** The effects of a whole run are those of the attempts of its pages. *)
Lemma startProcessing_effects config s :
  effects (snd (startProcessing config s)) =
  effects s ++ runLog (pdfDoc (appState s))
                 (pagesToProcess config (totalPages (appState s))) (world s).
Proof.
  rewrite startProcessing_afterIterations. cbn zeta. cbn [effects].
  rewrite afterIterations_eq.
  pose proof (pageLoop_log (pdfDoc (appState s))
                (pagesToProcess config (totalPages (appState s))) [] [] []
                (loopEntry config s)) as H.
  rewrite app_nil_r in H. cbn [length app] in H. rewrite H. reflexivity.
Qed.

(** The cells a run leaves as they were. *)
Lemma startProcessing_cells config s :
  let st := appState s in
  let st' := appState (snd (startProcessing config s)) in
  darkMode st' = darkMode st /\ currentFile st' = currentFile st
  /\ pdfDoc st' = pdfDoc st /\ totalPages st' = totalPages st
  /\ activeTab st' = activeTab st /\ isAnalyzing st' = isAnalyzing st.
Proof.
  cbn zeta. rewrite startProcessing_afterIterations. cbn zeta. cbn [appState].
  rewrite afterIterations_eq.
  destruct (pageLoop_run (pdfDoc (appState s))
              (pagesToProcess config (totalPages (appState s))) [] [] []
              (loopEntry config s)) as (s' & Hrun & _ & _ & _ & _ & Hframe).
  rewrite app_nil_r in Hrun. cbn [length app] in Hrun. rewrite Hrun. cbn [snd].
  unfold sameOutsideLoopCells in Hframe. cbn in Hframe. cbn.
  repeat match goal with H : _ /\ _ |- _ => destruct H end.
  repeat split; congruence.
Qed.

Lemma runLog_render_doc doc pages : forall w d p,
  In (CallRenderPageAsImage d p) (runLog doc pages w) -> d = doc.
Proof.
  induction pages as [|q pages IH]; intros w d p; cbn [runLog]; [easy|].
  intros H. apply in_app_or in H. destruct H as [H|H]; [|eauto].
  unfold pageLog in H.
  destruct (renderPageAsImage doc q w) as [[e|img] w1].
  - cbn in H. destruct H as [H|[H|[]]]; [congruence|discriminate].
  - destruct (performOCR img w1) as [[e|t] w2]; cbn in H;
      repeat (destruct H as [H|H]; [congruence || discriminate|]); easy.
Qed.


Lemma loggedErrors_app (l1 l2 : list Effect) :
  loggedErrors (l1 ++ l2) = loggedErrors l1 ++ loggedErrors l2.
Proof. apply flat_map_app. Qed.

Lemma ocrRequests_app (l1 l2 : list Effect) :
  ocrRequests (l1 ++ l2) = ocrRequests l1 ++ ocrRequests l2.
Proof. apply flat_map_app. Qed.

Lemma analysisRequests_app (l1 l2 : list Effect) :
  analysisRequests (l1 ++ l2) = analysisRequests l1 ++ analysisRequests l2.
Proof. apply flat_map_app. Qed.

(** What the log of one attempt holds, by its outcome. *)
Lemma pageLog_facts doc p w :
  visited (pageLog doc p w) = [p]
  /\ analysisRequests (pageLog doc p w) = []
  /\ (length (ocrRequests (pageLog doc p w)) <= 1)%nat
  /\ match fst (attempt doc p w) with
     | inr (img, _) =>
         loggedErrors (pageLog doc p w) = [] /\ ocrRequests (pageLog doc p w) = [img]
     | inl _ => loggedErrors (pageLog doc p w) = [Some (errorMessage p)]
     end.
Proof.
  unfold attempt, pageLog.
  destruct (renderPageAsImage doc p w) as [[e|img] w1]; [cbn; auto|].
  destruct (performOCR img w1) as [[e|t] w2]; cbn; auto.
Qed.

Lemma runLog_facts doc pages : forall w,
  visited (runLog doc pages w) = pages
  /\ analysisRequests (runLog doc pages w) = []
  /\ (length (succeeded doc pages w) + length (loggedErrors (runLog doc pages w))
      = length pages)%nat
  /\ (length (succeeded doc pages w) <= length (ocrRequests (runLog doc pages w))
      <= length pages)%nat
  /\ (forall page, In page (succeeded doc pages w) ->
        In (imageUrl page) (ocrRequests (runLog doc pages w))).
Proof.
  induction pages as [|p pages IH]; intros w; cbn [runLog succeeded length].
  - cbn. repeat split; auto; easy.
  - destruct (pageLog_facts doc p w) as (Hv & Ha & Ho & Hout).
    destruct (IH (snd (attempt doc p w))) as (IHv & IHa & IHl & IHo & IHin).
    rewrite visited_app, analysisRequests_app, loggedErrors_app, ocrRequests_app.
    rewrite Hv, Ha, IHv, IHa, !length_app.
    destruct (attempt doc p w) as [[e|[img t]] w']; cbn [fst snd] in *.
    + rewrite Hout. cbn [length app]. repeat split; try reflexivity; try lia.
      intros page Hin. apply in_or_app. right. now apply IHin.
    + destruct Hout as [-> ->]. cbn [length app].
      repeat split; try reflexivity; try lia.
      intros page [<-|Hin]; [now left|right; now apply IHin].
Qed.




(** ** More on the progress counters *)

Lemma current_after_iteration config s j :
  (j < length (pagesToProcess config (totalPages (appState s))))%nat ->
  current (processingProgress (appState (afterIterations config (S j) s))) =
  if succeedsAt config s j then Z.of_nat j + 1
  else current (processingProgress (appState (afterIterations config j s))).
Proof.
  intros Hj. unfold succeedsAt.
  destruct (afterIterations_step config s j Hj) as (acc & ->).
  destruct (attempt (pdfDoc (appState s))
              (nth j (pagesToProcess config (totalPages (appState s))) 0)
              (world (afterIterations config j s))) as [[e|[img t]] w'] eqn:Hat;
    cbn [fst].
  - destruct (processPage_failure _ _ _ acc _ _ _ Hat) as (log & -> & _). reflexivity.
  - rewrite (processPage_success _ _ _ acc _ _ _ _ Hat). reflexivity.
Qed.

(** X5. Throughout a run the total of the progress counters is the number
    of pages of the sequence, and after [j] iterations the current counter
    is the position, counted from 1, of the last page that succeeded among
    the first [j], or 0 when none did; so it stays between 0 and [j] and
    never decreases. *)
Theorem progress_is_position_of_last_success (config : ProcessingConfig) (s : Store)
    (j : nat) :
  let pages := pagesToProcess config (totalPages (appState s)) in
  let c := current (processingProgress (appState (afterIterations config j s))) in
  (j <= length pages)%nat ->
  total (processingProgress (appState (afterIterations config j s))) = Z.of_nat (length pages)
  /\ 0 <= c <= Z.of_nat j
  /\ ((c = 0 /\ forall i, (i < j)%nat -> succeedsAt config s i = false)
      \/ exists i, (i < j)%nat /\ c = Z.of_nat i + 1 /\ succeedsAt config s i = true
           /\ forall i', (i < i' < j)%nat -> succeedsAt config s i' = false)
  /\ ((j < length pages)%nat ->
      c <= current (processingProgress (appState (afterIterations config (S j) s)))).
Proof.
  intros pages c Hj. subst c.
  assert (Hpos : forall k, (k <= length pages)%nat ->
    let c := current (processingProgress (appState (afterIterations config k s))) in
    (c = 0 /\ forall i, (i < k)%nat -> succeedsAt config s i = false)
    \/ exists i, (i < k)%nat /\ c = Z.of_nat i + 1 /\ succeedsAt config s i = true
         /\ forall i', (i < i' < k)%nat -> succeedsAt config s i' = false).
  { induction k as [|k IH]; intros Hk; cbn zeta.
    - left. split; [reflexivity|]. intros i Hi. lia.
    - rewrite current_after_iteration by (fold pages; lia).
      destruct (succeedsAt config s k) eqn:Hok.
      + right. exists k. repeat split; [lia|assumption|]. intros i' Hi'. lia.
      + destruct IH as [[H0 Hnone]|(i & Hi & Hc & Hsi & Hlater)]; [lia| |].
        * left. split; [assumption|]. intros i Hi.
          destruct (Nat.eq_dec i k) as [->|Hne]; [assumption|apply Hnone; lia].
        * right. exists i. repeat split; [lia|assumption|assumption|].
          intros i' Hi'.
          destruct (Nat.eq_dec i' k) as [->|Hne]; [assumption|apply Hlater; lia]. }
  assert (Hbound : 0 <= current (processingProgress (appState (afterIterations config j s)))
                   <= Z.of_nat j).
  { destruct (Hpos j Hj) as [[H0 _]|(i & Hi & Hc & _)]; lia. }
  split; [apply afterIterations_total; assumption|].
  split; [exact Hbound|]. split; [exact (Hpos j Hj)|].
  intros Hlt. rewrite current_after_iteration by assumption.
  destruct (succeedsAt config s j); lia.
Qed.


(** ** The live preview *)

Lemma livePreview_last (st : AppState) :
  livePreview st =
  match rev (extractedPages st) with
  | [] => None
  | page :: _ => Some (firstn 200 (text page))
  end.
Proof.
  unfold livePreview, substring.
  destruct (extractedPages st) as [|p l] using rev_ind; [reflexivity|].
  rewrite rev_app_distr, length_app, Nat.add_1_r. cbn [rev app length Nat.ltb Nat.leb].
  replace (S (length l) - 1)%nat with (length l) by lia.
  rewrite nth_error_app2, Nat.sub_diag by lia. reflexivity.
Qed.

(** X6. After [j] iterations of a run the live output card shows the first
    200 code units at most of the text of the last page that succeeded
    among the first [j] pages, and is absent while none has succeeded. *)
Theorem live_preview_shows_last_succeeded_page (config : ProcessingConfig) (s : Store)
    (j : nat) :
  let pages := pagesToProcess config (totalPages (appState s)) in
  let records := succeeded (pdfDoc (appState s)) (firstn j pages) (world s) in
  let preview := livePreview (appState (afterIterations config j s)) in
  (j <= length pages)%nat ->
  preview = match rev records with
            | [] => None
            | page :: _ => Some (firstn 200 (text page))
            end
  /\ (forall t, preview = Some t ->
        (length t <= 200)%nat
        /\ exists page rest, In page records /\ text page = t ++ rest).
Proof.
  intros pages records preview Hj. subst preview.
  destruct (afterIterations_prefix config s j Hj) as (_ & _ & _ & Hrec & _).
  fold pages records in Hrec. rewrite livePreview_last, Hrec. split; [reflexivity|].
  destruct (rev records) as [|page l] eqn:Hrev; [discriminate|].
  intros t Ht. assert (t = firstn 200 (text page)) as -> by congruence.
  split; [apply firstn_le_length|].
  exists page, (skipn 200 (text page)). split; [|now rewrite firstn_skipn].
  apply in_rev. rewrite Hrev. now left.
Qed.

(** ** The shape of the other handlers *)

Lemma handleFileSelect_shape (file : File) (s : Store) :
  snd (handleFileSelect file s) =
  match fst (getDocument file (world s)) with
  | inr doc =>
      {| appState :=
           with_status IDLE
             (with_showConfig true
                (with_totalPages (numPages doc)
                   (with_pdfDoc (Some doc)
                      (with_currentFile (Some file)
                         (with_status LOADING_PDF (appState s))))));
         world := snd (getDocument file (world s));
         effects := effects s ++ [CallGetDocument file] |}
  | inl e =>
      {| appState :=
           with_status ERROR
             (with_currentFile (Some file) (with_status LOADING_PDF (appState s)));
         world := snd (getDocument file (world s));
         effects := effects s ++ [CallGetDocument file; ConsoleError None e;
                                  Alert (lit "Failed to load PDF. Please try another file.")] |}
  end.
Proof.
  unfold handleFileSelect, tryCatch, bind, call, await; cbn.
  destruct (getDocument file (world s)) as [[e|doc] w]; cbn; [|reflexivity].
  now rewrite <- !app_assoc.
Qed.

Lemma requestAnalysis_shape (ss : Session) :
  let st := appState (store ss) in
  let answer := analyzeText (editorText st) (world (store ss)) in
  requestAnalysis ss =
  if truthy (trim (editorText st))
  then {| store := {| appState := with_activeTab TabAnalysis (with_isAnalyzing true st);
                      world := snd answer;
                      effects := effects (store ss) ++ [CallAnalyzeText (editorText st)] |};
          inFlight := inFlight ss ++ [fst answer] |}
  else ss.
Proof.
  destruct ss as [s promises].
  unfold requestAnalysis, handleAnalyze_begin, bind, getState, call; cbn.
  destruct (truthy (trim (editorText (appState s)))); cbn; [|reflexivity].
  destruct (analyzeText (editorText (appState s)) (world s)) as [p w]; reflexivity.
Qed.

Lemma handleAnalyze_settled_shape (p : Exn + AnalysisResult) (s : Store) :
  handleAnalyze_settled p s =
  (inr tt,
   match p with
   | inr result =>
       {| appState := with_isAnalyzing false (with_analysis (Some result) (appState s));
          world := world s;
          effects := effects s |}
   | inl e =>
       {| appState := with_isAnalyzing false (appState s);
          world := world s;
          effects := effects s ++ [ConsoleError None e] |}
   end).
Proof. destruct p; reflexivity. Qed.


(** ** A second invariant of sessions *)

Lemma In_render_snoc (log : list Effect) (x : Effect) d p :
  In (CallRenderPageAsImage d p) (log ++ [x]) ->
  (forall d' p', x <> CallRenderPageAsImage d' p') ->
  In (CallRenderPageAsImage d p) log.
Proof.
  intros Hin Hx. apply in_app_or in Hin. destruct Hin as [Hin|[Hin|[]]]; [assumption|].
  exfalso. eapply Hx. eassumption.
Qed.

Lemma requestAnalysis_loaded (ss : Session) :
  loadedInvariant ss -> loadedInvariant (requestAnalysis ss).
Proof.
  intros Hinv. pose proof (requestAnalysis_shape ss) as Hshape. cbn zeta in Hshape.
  rewrite Hshape. destruct (truthy _); [|assumption].
  destruct Hinv as (Hdoc & Hpanel & Hflag & Hrender).
  unfold loadedInvariant. cbn. refine (conj Hdoc (conj Hpanel (conj _ _))).
  - intros H. apply app_eq_nil in H. destruct H as [_ H]. discriminate.
  - intros d p Hin. apply (Hrender d p). eapply In_render_snoc; [eassumption|].
    intros d' p'. discriminate.
Qed.

Lemma dispatch_loaded (e : UIEvent) (ss : Session) :
  onScreen e (appState (store ss)) = true ->
  loadedInvariant ss -> loadedInvariant (dispatch e ss).
Proof.
  intros Hon Hinv.
  assert (Htab : forall t, loadedInvariant (exec (setActiveTab t) ss)).
  { intros t. destruct Hinv as (Hdoc & Hpanel & Hflag & Hrender).
    unfold loadedInvariant. cbn. auto. }
  assert (Hsave : forall x, (forall d' p', x <> CallRenderPageAsImage d' p') ->
                            loadedInvariant (exec (perform x) ss)).
  { intros x Hx. destruct Hinv as (Hdoc & Hpanel & Hflag & Hrender).
    unfold loadedInvariant. cbn.
    split; [exact Hdoc|]. split; [exact Hpanel|]. split; [exact Hflag|].
    intros d p Hin. apply (Hrender d p). eapply In_render_snoc; eassumption. }
  destruct e; cbn [onScreen] in Hon.
  - destruct Hinv as (Hdoc & Hpanel & Hflag & Hrender). unfold loadedInvariant.
    cbn. auto.
  - apply status_eqb_eq in Hon.
    destruct Hinv as (Hdoc & Hpanel & Hflag & Hrender). unfold loadedInvariant.
    assert (Hoff : showConfig (appState (store ss)) <> true)
      by (intros Hc; apply Hpanel in Hc; congruence).
    cbn. refine (conj _ (conj _ (conj Hflag Hrender))).
    + intros [Hc|Hc]; [contradiction|discriminate].
    + intros Hc. contradiction.
  - apply andb_true_iff in Hon. destruct Hon as [Hst Hoff].
    rewrite negb_true_iff in Hoff.
    destruct Hinv as (Hdoc & Hpanel & Hflag & Hrender). unfold loadedInvariant.
    cbn [dispatch exec store inFlight]. rewrite handleFileSelect_shape.
    destruct (fst (getDocument file (world (store ss)))) as [err|doc]; cbn.
    + refine (conj _ (conj _ (conj Hflag _))).
      * intros [Hc|Hc]; [congruence|discriminate].
      * intros Hc. congruence.
      * intros d p Hin. apply (Hrender d p).
        apply in_app_or in Hin. destruct Hin as [Hin|Hin]; [assumption|].
        cbn in Hin. repeat (destruct Hin as [Hin|Hin]; [discriminate Hin|]). easy.
    + refine (conj _ (conj _ (conj Hflag _))).
      * intros _. split; [discriminate|]. exists doc. now split.
      * reflexivity.
      * intros d p Hin. apply (Hrender d p). eapply In_render_snoc; [eassumption|].
        intros d' p'. discriminate.
  - apply andb_true_iff in Hon. destruct Hon as [Hst Hcfg].
    destruct Hinv as (Hdoc & Hpanel & Hflag & Hrender). unfold loadedInvariant.
    cbn [dispatch exec store inFlight].
    destruct (startProcessing_run config (store ss))
      as (s' & Hrun & Hst' & _ & _ & _ & _ & _ & Hcfg').
    pose proof (startProcessing_cells config (store ss)) as Hcells.
    pose proof (startProcessing_effects config (store ss)) as Heff.
    cbn zeta in Hcells. rewrite Hrun in *. cbn [snd] in *.
    destruct Hcells as (_ & Hfile & Hpdf & Htotal & _ & Hflag').
    destruct (Hdoc (or_introl Hcfg)) as (Hf & doc & Hd & Ht).
    rewrite Hcfg', Hfile, Hpdf, Htotal, Hflag', Heff.
    refine (conj _ (conj _ (conj Hflag _))).
    + intros _. split; [assumption|]. exists doc. now split.
    + discriminate.
    + intros d p Hin. apply in_app_or in Hin. destruct Hin as [Hin|Hin]; [eauto|].
      apply runLog_render_doc in Hin. congruence.
  - apply andb_true_iff in Hon. destruct Hon as [Hst Hcfg].
    apply status_eqb_eq in Hst.
    destruct Hinv as (Hdoc & Hpanel & Hflag & Hrender). unfold loadedInvariant.
    cbn. refine (conj _ (conj _ (conj Hflag Hrender))).
    + intros [Hc|Hc]; [discriminate|congruence].
    + discriminate.
  - destruct tab; cbn [dispatch]; try apply Htab.
    destruct (isNone _); [apply requestAnalysis_loaded|]; apply Htab.
  - apply Hsave. intros d' p'. discriminate.
  - apply Hsave. intros d' p'. discriminate.
  - destruct Hinv as (Hdoc & Hpanel & Hflag & Hrender). unfold loadedInvariant.
    cbn. auto.
  - cbn [dispatch]. now apply requestAnalysis_loaded.
Qed.

Lemma reachable_loaded (ss : Session) : reachable ss -> loadedInvariant ss.
Proof.
  induction 1 as [w|ss ev ss' Hreach IH Hstep].
  - unfold loadedInvariant. cbn. refine (conj _ (conj _ (conj _ _))).
    + intros [H|H]; discriminate.
    + discriminate.
    + reflexivity.
    + intros d p [].
  - destruct ev as [e|n]; cbn [step] in Hstep.
    + destruct (onScreen e (appState (store ss))) eqn:Hon; [|discriminate].
      injection Hstep as <-. now apply dispatch_loaded.
    + destruct (nth_error (inFlight ss) n) as [p|]; [|discriminate].
      injection Hstep as <-. rewrite handleAnalyze_settled_shape. cbn [snd].
      destruct IH as (Hdoc & Hpanel & Hflag & Hrender). unfold loadedInvariant.
      destruct p as [err|result]; cbn.
      * refine (conj Hdoc (conj Hpanel (conj _ _))); [reflexivity|].
        intros d q Hin. apply (Hrender d q). eapply In_render_snoc; [eassumption|].
        intros d' p'. discriminate.
      * refine (conj Hdoc (conj Hpanel (conj _ Hrender))). reflexivity.
Qed.


(** ** The status machine *)


Lemma step_in_error (ev : Event) (ss ss' : Session) :
  status (appState (store ss)) = ERROR ->
  step ev ss = Some ss' ->
  let st := appState (store ss) in
  let st' := appState (store ss') in
  status st' = ERROR
  /\ currentFile st' = currentFile st /\ pdfDoc st' = pdfDoc st
  /\ extractedPages st' = extractedPages st /\ editorText st' = editorText st
  /\ showConfig st' = showConfig st
  /\ visited (effects (store ss')) = visited (effects (store ss))
  /\ analysisRequests (effects (store ss')) = analysisRequests (effects (store ss)).
Proof.
  intros Herr Hstep. destruct ev as [e|n]; cbn [step] in Hstep.
  - destruct (onScreen e (appState (store ss))) eqn:Hon; [|discriminate].
    injection Hstep as <-.
    destruct e; cbn [onScreen] in Hon; try rewrite Herr in Hon; try discriminate Hon.
    cbn. rewrite Herr. repeat split.
  - destruct (nth_error (inFlight ss) n) as [p|]; [|discriminate].
    injection Hstep as <-. rewrite handleAnalyze_settled_shape. cbn [snd store].
    destruct p as [err|result]; cbn; rewrite Herr; repeat split.
    + now rewrite visited_app, app_nil_r.
    + now rewrite analysisRequests_app, app_nil_r.
Qed.

Lemma replay_in_error (evs : list Event) :
  forall ss ss', status (appState (store ss)) = ERROR ->
    replay evs ss = Some ss' ->
    status (appState (store ss')) = ERROR
    /\ currentFile (appState (store ss')) = currentFile (appState (store ss))
    /\ visited (effects (store ss')) = visited (effects (store ss))
    /\ analysisRequests (effects (store ss')) = analysisRequests (effects (store ss)).
Proof.
  induction evs as [|ev evs IH]; intros ss ss' Hst Hrun; cbn [replay] in Hrun.
  - injection Hrun as <-. auto.
  - destruct (step ev ss) as [ss1|] eqn:Hstep; [|discriminate].
    destruct (step_in_error ev ss ss1 Hst Hstep)
      as (Hst' & Hfile' & _ & _ & _ & _ & Hv & Ha).
    cbn zeta in *. destruct (IH ss1 ss' Hst' Hrun) as (H1 & H2 & H3 & H4).
    repeat split; congruence.
Qed.

(** X2. A failed load is a dead end: the handler logs the error, alerts
    the user once and leaves the status ERROR, under which the only control
    on screen is the dark-mode toggle; whatever happens afterwards, the
    status stays ERROR, no file can be selected, and no page is rendered and
    no analysis requested any more. *)
Theorem failed_load_is_a_dead_end (ss : Session) (file : File) (e : Exn) :
  fst (getDocument file (world (store ss))) = inl e ->
  let ss1 := dispatch (FileSelected file) ss in
  status (appState (store ss1)) = ERROR
  /\ effects (store ss1) =
     effects (store ss) ++
     [CallGetDocument file; ConsoleError None e;
      Alert (lit "Failed to load PDF. Please try another file.")]
  /\ (forall ev, onScreen ev (appState (store ss1)) = true -> ev = ToggleDarkMode)
  /\ (forall evs ss2, replay evs ss1 = Some ss2 ->
        status (appState (store ss2)) = ERROR
        /\ currentFile (appState (store ss2)) = Some file
        /\ visited (effects (store ss2)) = visited (effects (store ss1))
        /\ analysisRequests (effects (store ss2)) = analysisRequests (effects (store ss1))).
Proof.
  intros Hfail ss1.
  assert (Hshape : store ss1 =
            {| appState :=
                 with_status ERROR
                   (with_currentFile (Some file)
                      (with_status LOADING_PDF (appState (store ss))));
               world := snd (getDocument file (world (store ss)));
               effects := effects (store ss) ++
                 [CallGetDocument file; ConsoleError None e;
                  Alert (lit "Failed to load PDF. Please try another file.")] |}).
  { subst ss1. cbn [dispatch exec store]. now rewrite handleFileSelect_shape, Hfail. }
  assert (Hst : status (appState (store ss1)) = ERROR) by now rewrite Hshape.
  split; [exact Hst|]. split; [now rewrite Hshape|]. split.
  - intros ev Hon. rewrite Hshape in Hon.
    destruct ev; cbn in Hon; try discriminate Hon. reflexivity.
  - intros evs ss2 Hrun.
    destruct (replay_in_error evs ss1 ss2 Hst Hrun) as (H1 & H2 & H3 & H4).
    repeat split; try assumption. rewrite H2, Hshape. reflexivity.
Qed.


(** ** Loading, then running *)

(** X3. In every session a user can bring about, no page was ever rendered
    without a loaded document; and whenever a run can be started the state
    holds the document loaded last with its own page count, so that the run
    asks for the pages of this document, in mode ALL for the pages from 1 to
    its page count exactly, and every record it leaves then has a page
    number within the document. *)
Theorem run_uses_the_loaded_document (ss : Session) :
  reachable ss ->
  (forall d p, In (CallRenderPageAsImage d p) (effects (store ss)) -> d <> None)
  /\ (forall config,
        onScreen (ConfigStart config) (appState (store ss)) = true ->
        exists doc,
          pdfDoc (appState (store ss)) = Some doc
          /\ totalPages (appState (store ss)) = numPages doc
          /\ effects (store (dispatch (ConfigStart config) ss)) =
             effects (store ss) ++
             runLog (Some doc) (pagesToProcess config (numPages doc)) (world (store ss))
          /\ (mode config = ALL ->
              visited (effects (store (dispatch (ConfigStart config) ss))) =
                visited (effects (store ss)) ++ interval 1 (numPages doc)
              /\ forall page,
                   In page (extractedPages (appState (store (dispatch (ConfigStart config) ss)))) ->
                   1 <= pageNumber page <= numPages doc)).
Proof.
  intros Hreach. destruct (reachable_loaded ss Hreach) as (Hdoc & _ & _ & Hrender).
  split; [exact Hrender|]. intros config Hon.
  cbn [onScreen] in Hon. apply andb_true_iff in Hon. destruct Hon as [_ Hcfg].
  destruct (Hdoc (or_introl Hcfg)) as (_ & doc & Hd & Ht).
  exists doc. split; [assumption|]. split; [assumption|].
  cbn [dispatch exec store].
  pose proof (startProcessing_effects config (store ss)) as Heff.
  rewrite Hd, Ht in Heff. split; [exact Heff|].
  intros Hmode.
  destruct (startProcessing_run config (store ss))
    as (s' & Hrun & _ & Hpages & _ & _ & Hvis & _).
  rewrite Hrun in *. cbn [snd] in *.
  rewrite pagesToProcess_interval, Hmode, Ht in Hvis, Hpages.
  split; [exact Hvis|].
  intros page Hin. rewrite Hpages in Hin. apply succeeded_pageNumber_In in Hin.
  now apply interval_In in Hin.
Qed.

(** ** The analysis *)

(** X7. In every session a user can bring about, [isAnalyzing] is off
    whenever no analysis request is in flight; so on the analysis tab of the
    workspace, with no result stored and nothing in flight, the
    [Generate Analysis] button is on screen: the spinner is never shown
    without a request that can still settle. *)
Theorem analysis_spinner_never_stuck (ss : Session) :
  reachable ss ->
  inFlight ss = [] ->
  isAnalyzing (appState (store ss)) = false
  /\ (status (appState (store ss)) = COMPLETED ->
      activeTab (appState (store ss)) = TabAnalysis ->
      analysis (appState (store ss)) = None ->
      onScreen ClickGenerateAnalysis (appState (store ss)) = true).
Proof.
  intros Hreach Hnone. destruct (reachable_loaded ss Hreach) as (_ & _ & Hflag & _).
  specialize (Hflag Hnone). split; [assumption|].
  intros Hst Htab Han. cbn [onScreen]. now rewrite Hst, Htab, Han, Hflag.
Qed.

Lemma nth_error_snoc {A} (l : list A) (x : A) : nth_error (l ++ [x]) (length l) = Some x.
Proof. now rewrite nth_error_app2, Nat.sub_diag by lia. Qed.

Lemma removeAt_snoc {A} (l : list A) (x : A) : removeAt (length l) (l ++ [x]) = l.
Proof. induction l as [|a l IH]; cbn; [reflexivity|now rewrite IH]. Qed.

(** X8. The handler suspended at its request and resumed when the request
    settles does what [handleAnalyze] does in one piece. With a text that is
    not blank the request carries the editor text as it is, edits included;
    the handler returns without throwing, ends on the analysis tab with
    [isAnalyzing] off, stores the result when the service answers, and when
    it fails logs the error and keeps the result stored before, if any. *)
Theorem request_then_settle_is_handleAnalyze (ss : Session) :
  let st := appState (store ss) in
  let answer := analyzeText (editorText st) (world (store ss)) in
  let final := snd (handleAnalyze (store ss)) in
  truthy (trim (editorText st)) = true ->
  step (AnalysisSettles (length (inFlight ss))) (requestAnalysis ss) =
    Some {| store := final; inFlight := inFlight ss |}
  /\ fst (handleAnalyze (store ss)) = inr tt
  /\ analysis (appState final) =
     match fst answer with inr result => Some result | inl _ => analysis st end
  /\ isAnalyzing (appState final) = false
  /\ activeTab (appState final) = TabAnalysis
  /\ world final = snd answer
  /\ effects final =
     effects (store ss) ++
     CallAnalyzeText (editorText st)
       :: match fst answer with inl e => [ConsoleError None e] | inr _ => [] end.
Proof.
  intros st answer final Htext. subst final.
  assert (Hatomic : handleAnalyze (store ss) =
            handleAnalyze_settled (fst answer)
              {| appState := with_activeTab TabAnalysis (with_isAnalyzing true st);
                 world := snd answer;
                 effects := effects (store ss) ++ [CallAnalyzeText (editorText st)] |}).
  { subst answer st. unfold handleAnalyze, handleAnalyze_begin, bind, getState, call.
    cbn. rewrite Htext. cbn.
    destruct (analyzeText (editorText (appState (store ss))) (world (store ss)))
      as [p w]. reflexivity. }
  pose proof (requestAnalysis_shape ss) as Hshape. cbn zeta in Hshape.
  fold st answer in Hshape. rewrite Htext in Hshape.
  rewrite Hshape, Hatomic. cbn [step inFlight store].
  rewrite nth_error_snoc, removeAt_snoc, handleAnalyze_settled_shape. cbn [fst snd].
  split; [reflexivity|]. split; [reflexivity|].
  destruct (fst answer) as [e|result]; cbn; rewrite <- ?app_assoc; repeat split.
Qed.


(** X9. Each click on the analysis tab while no result is stored and the
    text is not blank sends one more request, also while earlier ones are
    still in flight: after [n] clicks there are [n] more requests in flight
    and [n] more calls of [analyzeText], all with the editor text. *)
Theorem repeated_tab_clicks_send_repeated_requests (n : nat) :
  forall ss : Session,
    status (appState (store ss)) = COMPLETED ->
    analysis (appState (store ss)) = None ->
    truthy (trim (editorText (appState (store ss)))) = true ->
    exists ss',
      replay (repeat (UI (ClickTab TabAnalysis)) n) ss = Some ss'
      /\ length (inFlight ss') = (length (inFlight ss) + n)%nat
      /\ analysisRequests (effects (store ss')) =
         analysisRequests (effects (store ss)) ++ repeat (editorText (appState (store ss))) n
      /\ analysis (appState (store ss')) = None
      /\ editorText (appState (store ss')) = editorText (appState (store ss)).
Proof.
  induction n as [|n IH]; intros ss Hst Han Htext.
  - exists ss. cbn. rewrite app_nil_r, Nat.add_0_r. auto.
  - cbn [repeat replay step onScreen]. rewrite Hst. cbn [status_eqb dispatch].
    rewrite Han. cbn [isNone].
    pose proof (requestAnalysis_shape (exec (setActiveTab TabAnalysis) ss)) as Hshape.
    cbn zeta in Hshape.
    change (editorText (appState (store (exec (setActiveTab TabAnalysis) ss))))
      with (editorText (appState (store ss))) in Hshape.
    rewrite Htext in Hshape. rewrite Hshape. clear Hshape.
    match goal with
    | |- exists ss', replay _ ?x = _ /\ _ =>
        destruct (IH x) as (ss' & Hrun & Hlen & Hreq & Han' & Htext');
          [cbn; assumption..|]
    end.
    exists ss'. split; [exact Hrun|].
    cbn [inFlight store effects appState editorText with_activeTab with_isAnalyzing]
      in Hlen, Hreq, Htext'.
    rewrite length_app in Hlen. cbn [length] in Hlen.
    rewrite analysisRequests_app in Hreq. cbn in Hreq.
    rewrite <- app_assoc in Hreq.
    split; [cbn [exec inFlight] in Hlen; lia|]. split; [exact Hreq|].
    split; [assumption|exact Htext'].
Qed.

(** X10. While a result is stored no control on screen sends an analysis
    request: the [Generate Analysis] button is not shown and the analysis tab
    only switches the tab; and every control but [New] keeps the result, also
    the edit of the text, the selection of a file and the start of a run. *)
Theorem no_request_while_result_stored (e : UIEvent) (ss : Session) :
  onScreen e (appState (store ss)) = true ->
  analysis (appState (store ss)) <> None ->
  let ss' := dispatch e ss in
  inFlight ss' = inFlight ss
  /\ analysisRequests (effects (store ss')) = analysisRequests (effects (store ss))
  /\ (e <> ClickNew -> analysis (appState (store ss')) = analysis (appState (store ss))).
Proof.
  intros Hon Han ss'. subst ss'.
  destruct e; cbn [onScreen] in Hon.
  - cbn. auto.
  - cbn. split; [reflexivity|]. split; [reflexivity|]. intros H. now contradiction H.
  - cbn [dispatch exec store inFlight]. rewrite handleFileSelect_shape.
    destruct (fst (getDocument file (world (store ss)))) as [err|doc]; cbn;
      rewrite analysisRequests_app, app_nil_r; auto.
  - cbn [dispatch exec store inFlight].
    destruct (startProcessing_run config (store ss))
      as (s' & Hrun & _ & _ & _ & _ & _ & Han' & _).
    pose proof (startProcessing_effects config (store ss)) as Heff.
    rewrite Hrun in *. cbn [snd] in *. rewrite Heff, analysisRequests_app.
    destruct (runLog_facts (pdfDoc (appState (store ss)))
                (pagesToProcess config (totalPages (appState (store ss))))
                (world (store ss))) as (_ & -> & _).
    rewrite app_nil_r. auto.
  - cbn. auto.
  - destruct tab; cbn [dispatch]; try (cbn; auto; fail).
    destruct (analysis (appState (store ss))) as [r|] eqn:Hr; [|contradiction].
    cbn. auto.
  - cbn. rewrite analysisRequests_app, app_nil_r. auto.
  - cbn. rewrite analysisRequests_app, app_nil_r. auto.
  - cbn. auto.
  - destruct (analysis (appState (store ss))); [|contradiction].
    apply andb_true_iff in Hon. destruct Hon as [Hon _].
    apply andb_true_iff in Hon. destruct Hon as [_ Hnone]. discriminate Hnone.
Qed.


(** ** The downloads *)

Lemma split_head (sep : N) (s : jsstring) :
  exists base tl,
    split sep s = base :: tl
    /\ ~ In sep base
    /\ (s = base \/ exists rest, s = base ++ sep :: rest).
Proof.
  induction s as [|c s (base & tl & Hsplit & Hbase & Hs)]; cbn [split].
  - exists [], []. repeat split; auto.
  - destruct (N.eqb_spec c sep) as [->|Hne].
    + exists [], (split sep s). repeat split; [easy|]. right. now exists s.
    + rewrite Hsplit. exists (c :: base), tl. repeat split.
      * intros [H|H]; [congruence|contradiction].
      * destruct Hs as [->|(rest & ->)]; [now left|right]. now exists rest.
Qed.

(** X11. In every session a user can bring about, whenever the download
    buttons are on screen a file is loaded, and the name of a download starts
    with the name of this file up to its first dot, the whole name when it
    has none: the text download saves the editor text as it stands, as
    [text/plain;charset=utf-8], under this stem followed by [_extracted.txt],
    the archive is saved under the stem followed by [_images.zip], and
    neither changes the state or calls a service. *)
Theorem downloads_are_named_after_the_loaded_file (ss : Session) :
  reachable ss ->
  onScreen ClickDownloadText (appState (store ss)) = true ->
  exists file stem,
    currentFile (appState (store ss)) = Some file
    /\ ~ In 46%N stem
    /\ (fileName file = stem \/ exists rest, fileName file = stem ++ 46%N :: rest)
    /\ store (dispatch ClickDownloadText ss) =
       {| appState := appState (store ss);
          world := world (store ss);
          effects := effects (store ss) ++
            [SaveAs (TextBlob (editorText (appState (store ss)))
                              (lit "text/plain;charset=utf-8"))
                    (stem ++ lit "_extracted.txt")] |}
    /\ exists archive,
         store (dispatch ClickDownloadImages ss) =
         {| appState := appState (store ss);
            world := world (store ss);
            effects := effects (store ss) ++
              [SaveAs archive (stem ++ lit "_images.zip")] |}.
Proof.
  intros Hreach Hon. cbn [onScreen] in Hon. apply status_eqb_eq in Hon.
  destruct (reachable_loaded ss Hreach) as (Hdoc & _).
  destruct (Hdoc (or_intror Hon)) as (Hfile & _).
  destruct (currentFile (appState (store ss))) as [file|] eqn:Hcur; [|contradiction].
  destruct (split_head 46 (fileName file)) as (stem & tl & Hsplit & Hstem & Hname).
  exists file, stem. repeat split; try assumption.
  - cbn. rewrite Hcur. cbn. rewrite Hsplit. reflexivity.
  - eexists. cbn. rewrite Hcur. cbn. rewrite Hsplit. reflexivity.
Qed.

(** ** The dark mode *)

Lemma NoDup_snoc {A} (l : list A) (x : A) : NoDup l -> ~ In x l -> NoDup (l ++ [x]).
Proof.
  induction 1 as [|a l Ha Hl IH]; intros Hx; cbn; [repeat constructor; easy|].
  constructor.
  - intros Hin. apply in_app_or in Hin. destruct Hin as [Hin|[->|[]]]; [contradiction|].
    apply Hx. now left.
  - apply IH. intros Hin. apply Hx. now right.
Qed.

Lemma classList_remove_In (token t : jsstring) (classList : list jsstring) :
  In t (classList_remove token classList) <-> In t classList /\ t <> token.
Proof.
  unfold classList_remove. rewrite filter_In.
  destruct (list_eq_dec N.eq_dec t token); split; intros [H1 H2];
    split; congruence || assumption.
Qed.

Lemma classList_remove_app (token : jsstring) (l1 l2 : list jsstring) :
  classList_remove token (l1 ++ l2) = classList_remove token l1 ++ classList_remove token l2.
Proof. apply filter_app. Qed.

Lemma classList_remove_idem (token : jsstring) (classList : list jsstring) :
  classList_remove token (classList_remove token classList) = classList_remove token classList.
Proof.
  unfold classList_remove.
  induction classList as [|t l IH]; [reflexivity|]. cbn [filter].
  destruct (list_eq_dec N.eq_dec t token) as [|Hne] eqn:E; [exact IH|].
  cbn [filter]. rewrite E. now f_equal.
Qed.

Lemma darkModeEffect_facts (d : bool) (classList : list jsstring) :
  (In (lit "dark") (darkModeEffect d classList) <-> d = true)
  /\ classList_remove (lit "dark") (darkModeEffect d classList) =
     classList_remove (lit "dark") classList
  /\ (NoDup classList -> NoDup (darkModeEffect d classList)).
Proof.
  unfold darkModeEffect. destruct d.
  - unfold classList_add.
    destruct (in_dec (list_eq_dec N.eq_dec) (lit "dark") classList) as [Hin|Hnot].
    + repeat split; auto.
    + rewrite classList_remove_app. repeat split.
      * intros _. apply in_or_app. right. now left.
      * cbn. destruct (list_eq_dec N.eq_dec (lit "dark") (lit "dark"));
          [now rewrite app_nil_r|contradiction].
      * intros Hnd. now apply NoDup_snoc.
  - rewrite classList_remove_idem. repeat split.
    + intros Hin. apply classList_remove_In in Hin. now destruct Hin.
    + discriminate.
    + intros Hnd. now apply NoDup_filter.
Qed.

(** X12. After the dark-mode effect has run for a series of values of
    [darkMode], the root element has the class [dark] exactly when the last
    value is on; its other classes are the ones it had, in their order, and
    no class is repeated if none was. *)
Theorem dark_class_follows_dark_mode (classList : list jsstring) (earlier : list bool)
    (darkMode : bool) :
  let after := fold_left (fun cl d => darkModeEffect d cl) (earlier ++ [darkMode]) classList in
  (In (lit "dark") after <-> darkMode = true)
  /\ classList_remove (lit "dark") after = classList_remove (lit "dark") classList
  /\ (NoDup classList -> NoDup after).
Proof.
  cbn zeta. rewrite fold_left_app. cbn [fold_left].
  set (before := fold_left (fun cl d => darkModeEffect d cl) earlier classList).
  assert (Hbefore : classList_remove (lit "dark") before =
                    classList_remove (lit "dark") classList
                    /\ (NoDup classList -> NoDup before)).
  { subst before. revert classList.
    induction earlier as [|d ds IH]; intros classList; cbn [fold_left]; [auto|].
    destruct (IH (darkModeEffect d classList)) as [H1 H2].
    destruct (darkModeEffect_facts d classList) as (_ & H3 & H4).
    split; [congruence|auto]. }
  destruct Hbefore as [H1 H2].
  destruct (darkModeEffect_facts darkMode before) as (H3 & H4 & H5).
  split; [exact H3|]. split; [congruence|auto].
Qed.

End App.

(** * Concrete runs *)

(** The handlers over the services of [Demo]. *)
Abbreviation demoStart :=
  (@startProcessing Demo.File Demo.PdfDoc Demo.Exn Demo.World
     Demo.renderPageAsImage Demo.performOCR).
Abbreviation demoAfterIterations :=
  (@afterIterations Demo.File Demo.PdfDoc Demo.Exn Demo.World
     Demo.renderPageAsImage Demo.performOCR).
Abbreviation demoAttempt :=
  (@attempt Demo.PdfDoc Demo.Exn Demo.World Demo.renderPageAsImage Demo.performOCR).
Abbreviation demoReplay :=
  (@replay Demo.File Demo.fileName Demo.PdfDoc Demo.numPages Demo.Exn Demo.World
     Demo.getDocument Demo.renderPageAsImage Demo.performOCR Demo.analyzeText).
Abbreviation demoDispatch :=
  (@dispatch Demo.File Demo.fileName Demo.PdfDoc Demo.numPages Demo.Exn Demo.World
     Demo.getDocument Demo.renderPageAsImage Demo.performOCR Demo.analyzeText).
Abbreviation demoReachable :=
  (@reachable Demo.File Demo.fileName Demo.PdfDoc Demo.numPages Demo.Exn Demo.World
     Demo.getDocument Demo.renderPageAsImage Demo.performOCR Demo.analyzeText).
Abbreviation demoSession w :=
  (@initialSession Demo.File Demo.PdfDoc Demo.Exn Demo.World w).

(** A store in which a document of [n] pages is loaded, in world [w]. *)
Abbreviation demoLoaded n w :=
  (@Build_Store Demo.File Demo.PdfDoc Demo.Exn Demo.World
     (with_totalPages n%Z (with_pdfDoc (Some n%Z) (initialState Demo.File Demo.PdfDoc)))
     w []).

Abbreviation allPages := {| mode := ALL; singlePage := 1; rangeStart := 1; rangeEnd := 1 |}.

(** In mode ALL a run on a document of three pages visits 1, 2, 3; a range
    from 2 to 4 is 2, 3, 4, and a range from 4 to 2 is empty. *)
Example visited_pages_examples :
  visited (effects (snd (demoStart allPages (demoLoaded 3 [])))) = [1; 2; 3]
  /\ pagesToProcess {| mode := RANGE; singlePage := 1; rangeStart := 2; rangeEnd := 4 |} 9
     = [2; 3; 4]
  /\ pagesToProcess {| mode := RANGE; singlePage := 1; rangeStart := 4; rangeEnd := 2 |} 9
     = []
  /\ pagesToProcess {| mode := SINGLE; singlePage := 7; rangeStart := 4; rangeEnd := 2 |} 9
     = [7].
Proof. repeat split. Qed.

(** C2, the claim as stated fails: in a run over two pages in which the OCR
    of page 2 fails while the text recognised on page 1 reads
    [--- Page 2 ---], the editor text contains the marker of page 2. *)
Lemma marker_of_failed_page_in_text :
  let s := demoLoaded 2 [Some (lit "--- Page 2 ---"); None] in
  let final := snd (demoStart allPages s) in
  nth 1 (pagesToProcess allPages (totalPages (appState s))) 0 = 2
  /\ fst (demoAttempt (pdfDoc (appState s)) 2 (world (demoAfterIterations allPages 1 s)))
     = inl (lit "OCR failed")
  /\ includes (marker 2) (editorText (appState final)) = true.
Proof. repeat split. Qed.

(** C2, the amended claim at a run over two pages in which the OCR of
    page 2 fails. *)
Lemma failed_page_is_skipped_witness :
  let s := demoLoaded 2 [Some (lit "first page"); None] in
  let final := snd (demoStart allPages s) in
  (forall page, In page (extractedPages (appState final)) -> pageNumber page <> 2)
  /\ includes (marker 2) (editorText (appState final)) = false
  /\ visited (effects final) = [1; 2]
  /\ status (appState final) = COMPLETED.
Proof.
  intros s final.
  destruct (failed_page_is_skipped _ _ _ _ Demo.renderPageAsImage Demo.performOCR
              allPages s 1)
    as (Hnot & _ & Hmark & Hvis & _ & Hst).
  - vm_compute. lia.
  - exists (lit "OCR failed"). reflexivity.
  - split; [exact Hnot|]. split; [|split; [exact Hvis|exact Hst]].
    apply Hmark. intros page [<-|[]]. reflexivity.
Defined.

(** C4 at a range whose start is above its end. *)
Lemma run_ends_completed_witness :
  let config := {| mode := RANGE; singlePage := 1; rangeStart := 5; rangeEnd := 3 |} in
  let r := demoStart config (demoLoaded 9 [Some (lit "unused")]) in
  fst r = inr tt
  /\ status (appState (snd r)) = COMPLETED
  /\ extractedPages (appState (snd r)) = []
  /\ effects (snd r) = [].
Proof.
  intros config r.
  destruct (run_ends_completed _ _ _ _ Demo.renderPageAsImage Demo.performOCR
              config (demoLoaded 9 [Some (lit "unused")]))
    as (Hret & Hst & Hempty & Hrange).
  destruct Hempty as (Hpages & Heff & _); [apply Hrange; [reflexivity|cbn; lia]|].
  split; [exact Hret|]. split; [exact Hst|]. split; [exact Hpages|exact Heff].
Defined.

(** C5 at an editor text of a space, a line feed and a tab. *)
Lemma analyze_blank_text_is_noop_witness :
  let s := @Build_Store Demo.File Demo.PdfDoc Demo.Exn Demo.World
             (with_editorText [32; 10; 9]%N
                (with_status COMPLETED (initialState Demo.File Demo.PdfDoc)))
             [] [] in
  handleAnalyze Demo.analyzeText s = (inr tt, s).
Proof.
  intros s.
  destruct (analyze_blank_text_is_noop _ _ _ _ Demo.analyzeText s) as [H _];
    [reflexivity|exact H].
Defined.

(** A file of one page is selected and processed, the analysis tab is
    opened, which requests the analysis, [New] is clicked before the
    analysis settles, and then it settles. *)
Abbreviation oldFile := ((lit "old.pdf", 1%Z) : Demo.File).
Abbreviation newFile := ((lit "new.pdf", 1%Z) : Demo.File).
Abbreviation staleEvents :=
  [UI (FileSelected oldFile); UI (ConfigStart Demo.File allPages);
   UI (ClickTab Demo.File TabAnalysis); UI (ClickNew Demo.File);
   AnalysisSettles Demo.File 0].
Abbreviation twoTexts := [Some (lit "old text"); Some (lit "new text")].

(** What a list of events leads to from an initial session is a session a
    user can bring about. *)
Lemma demo_reachable (evs : list (Event Demo.File)) (w : Demo.World)
    (ss : Session Demo.File Demo.PdfDoc Demo.Exn Demo.World) :
  demoReplay evs (demoSession w) = Some ss -> demoReachable ss.
Proof.
  intros H. eapply replay_reachable; [|exact H]. apply reachable_initial.
Qed.

(** C6 at the session in which a file of two pages has been processed. *)
Lemma archive_has_one_member_per_page_witness :
  exists ss,
    demoReplay [UI (FileSelected (lit "scan.v2.pdf", 2)); UI (ConfigStart Demo.File allPages)]
               (demoSession twoTexts) = Some ss
    /\ effects (store (demoDispatch (ClickDownloadImages Demo.File) ss)) =
       effects (store ss) ++
       [SaveAs Demo.File Demo.PdfDoc Demo.Exn
          (ZipBlob [{| entryName := lit "page_1.jpg";
                       entryData := Some (lit "UGFnZQ==");
                       entryBase64 := true |};
                    {| entryName := lit "page_2.jpg";
                       entryData := Some (lit "UGFnZQ==");
                       entryBase64 := true |}])
          (lit "scan_images.zip")].
Proof.
  eexists. split; [vm_compute; reflexivity|].
  match goal with
  | |- context [demoDispatch _ ?ss] =>
      destruct (archive_has_one_member_per_page _ Demo.fileName _ Demo.numPages _ _
                  Demo.getDocument Demo.renderPageAsImage Demo.performOCR
                  Demo.analyzeText ss) as (Heff & _)
  end.
  - apply (demo_reachable
             [UI (FileSelected (lit "scan.v2.pdf", 2)); UI (ConfigStart Demo.File allPages)]
             twoTexts).
    vm_compute. reflexivity.
  - exact Heff.
Defined.

(** C7, the claim as stated fails: after a run on one page the progress
    counters are 1 of 1, and reset leaves them so, not at their initial
    values 0 of 0. *)
Lemma reset_keeps_progress_counters :
  let s := snd (demoStart allPages (demoLoaded 1 [Some (lit "text")])) in
  status (appState s) = COMPLETED
  /\ processingProgress (appState (snd (handleReset s))) = {| current := 1; total := 1 |}
  /\ processingProgress (appState (snd (handleReset s))) <>
     processingProgress (initialState Demo.File Demo.PdfDoc).
Proof. repeat split. discriminate. Qed.

(** C8, the claim as stated fails: when the OCR of the only page of a run
    fails, the current counter after the attempt is 0, not 1. *)
Lemma progress_not_advanced_by_failed_page :
  let s := demoLoaded 1 [None] in
  pagesToProcess allPages (totalPages (appState s)) = [1]
  /\ fst (demoAttempt (pdfDoc (appState s)) 1 (world (demoAfterIterations allPages 0 s)))
     = inl (lit "OCR failed")
  /\ current (processingProgress (appState (demoAfterIterations allPages 1 s))) <>
     Z.of_nat 0 + 1.
Proof. repeat split. discriminate. Qed.

(** C8, the amended claim at the second page of a run whose first page
    failed. *)
Lemma progress_after_page_witness :
  let s := demoLoaded 2 [None; Some (lit "second page")] in
  total (processingProgress (appState (demoAfterIterations allPages 2 s))) = 2
  /\ current (processingProgress (appState (demoAfterIterations allPages 2 s))) = 2.
Proof.
  intros s.
  destruct (progress_after_page _ _ _ _ Demo.renderPageAsImage Demo.performOCR
              allPages s 1) as [Htotal Hcurrent]; [vm_compute; lia|].
  split; [exact Htotal|exact Hcurrent].
Defined.

(** C9, the claim as stated fails: when the analysis requested on the old
    document settles after the reset, the uploader is on screen with an
    analysis result stored, and selecting a new file leaves it stored. *)
Lemma stale_analysis_survives_file_selection :
  exists ss,
    demoReplay staleEvents (demoSession twoTexts) = Some ss
    /\ onScreen (FileSelected newFile) (appState (store ss)) = true
    /\ analysis (appState (store (demoDispatch (FileSelected newFile) ss))) <> None.
Proof.
  eexists. split; [vm_compute; reflexivity|]. split; [reflexivity|]. discriminate.
Qed.

(** C9, the amended claim in the same session. *)
Lemma file_selection_leaves_session_data_witness :
  exists ss,
    demoReplay staleEvents (demoSession twoTexts) = Some ss
    /\ extractedPages (appState (store (demoDispatch (FileSelected newFile) ss))) = []
    /\ editorText (appState (store (demoDispatch (FileSelected newFile) ss))) = []
    /\ analysis (appState (store (demoDispatch (FileSelected newFile) ss))) =
       analysis (appState (store ss)).
Proof.
  eexists. split; [vm_compute; reflexivity|].
  match goal with
  | |- context [demoDispatch _ ?ss] =>
      destruct (file_selection_leaves_session_data _ Demo.fileName _ Demo.numPages _ _
                  Demo.getDocument Demo.renderPageAsImage Demo.performOCR
                  Demo.analyzeText ss newFile) as [H _]
  end.
  - apply (demo_reachable staleEvents twoTexts). vm_compute. reflexivity.
  - reflexivity.
  - exact H.
Defined.

(** C10 in the session in which the stale analysis of the old document is
    stored and the new file has been selected: after the run on the new
    file the analysis of the old text stands beside the page of the new
    one. *)
Lemma run_clears_pages_and_text_keeps_analysis_witness :
  exists ss result,
    demoReplay (staleEvents ++ [UI (FileSelected newFile)]) (demoSession twoTexts) = Some ss
    /\ analysis (appState (store ss)) = Some result
    /\ summary result = pageText 1 (lit "old text")
    /\ analysis (appState (snd (demoStart allPages (store ss)))) = Some result
    /\ map text (extractedPages (appState (snd (demoStart allPages (store ss))))) =
       [lit "new text"].
Proof.
  eexists. eexists. split; [vm_compute; reflexivity|].
  split; [reflexivity|]. split; [reflexivity|].
  match goal with
  | |- context [demoStart _ ?s] =>
      destruct (run_clears_pages_and_text_keeps_analysis _ _ _ _
                  Demo.renderPageAsImage Demo.performOCR allPages s)
        as (_ & _ & _ & _ & Hkeep)
  end.
  match type of Hkeep with
  | forall r, _ = Some r -> _ => edestruct Hkeep as [Han Hpages]; [reflexivity|]
  end.
  split; [exact Han|]. rewrite Hpages. reflexivity.
Defined.

(** ** The further properties at concrete inputs *)

Abbreviation demoStep :=
  (@step Demo.File Demo.fileName Demo.PdfDoc Demo.numPages Demo.Exn Demo.World
     Demo.getDocument Demo.renderPageAsImage Demo.performOCR Demo.analyzeText).
Abbreviation demoRequestAnalysis :=
  (@requestAnalysis Demo.File Demo.PdfDoc Demo.Exn Demo.World Demo.analyzeText).
Abbreviation demoAnalyze :=
  (@handleAnalyze Demo.File Demo.PdfDoc Demo.Exn Demo.World Demo.analyzeText).
Abbreviation brokenFile := ((lit "broken.pdf", (-1)%Z) : Demo.File).

(** A file of one page is selected and processed. *)
Abbreviation processedEvents :=
  [UI (FileSelected oldFile); UI (ConfigStart Demo.File allPages)].


(** X2 at the selection of a file that does not load, in an initial
    session. *)
Lemma failed_load_is_a_dead_end_witness :
  let ss1 := demoDispatch (FileSelected brokenFile) (demoSession twoTexts) in
  status (appState (store ss1)) = ERROR
  /\ (forall ev, onScreen ev (appState (store ss1)) = true -> ev = ToggleDarkMode Demo.File)
  /\ (forall evs ss2, demoReplay evs ss1 = Some ss2 ->
        status (appState (store ss2)) = ERROR).
Proof.
  intros ss1.
  destruct (failed_load_is_a_dead_end
              _ Demo.fileName _ Demo.numPages _ _ Demo.getDocument
              Demo.renderPageAsImage Demo.performOCR Demo.analyzeText
              (demoSession twoTexts) brokenFile (lit "Invalid PDF structure"))
    as (Hst & _ & Hscreen & Hlater); [reflexivity|].
  split; [exact Hst|]. split; [exact Hscreen|].
  intros evs ss2 Hrun. now destruct (Hlater evs ss2 Hrun).
Defined.

(** X3 once a file of three pages is loaded. *)
Lemma run_uses_the_loaded_document_witness :
  exists ss,
    demoReplay [UI (FileSelected (lit "scan.pdf", 3))] (demoSession []) = Some ss
    /\ exists doc,
         pdfDoc (appState (store ss)) = Some doc
         /\ visited (effects (store (demoDispatch (ConfigStart Demo.File allPages) ss))) =
            visited (effects (store ss)) ++ interval 1 (Demo.numPages doc).
Proof.
  eexists. split; [vm_compute; reflexivity|].
  match goal with
  | |- context [demoDispatch _ ?ss] =>
      destruct (run_uses_the_loaded_document
                  _ Demo.fileName _ Demo.numPages _ _ Demo.getDocument
                  Demo.renderPageAsImage Demo.performOCR Demo.analyzeText ss)
        as [_ Hstart]
  end.
  - apply (demo_reachable [UI (FileSelected (lit "scan.pdf", 3))] []).
    vm_compute. reflexivity.
  - destruct (Hstart allPages) as (doc & Hdoc & _ & _ & Hall); [reflexivity|].
    exists doc. split; [exact Hdoc|]. now destruct (Hall eq_refl).
Defined.

(** X5 at the end of a run over three pages of which only the first
    succeeds. *)
Lemma progress_is_position_of_last_success_witness :
  let s := demoLoaded 3 [Some (lit "first page"); None; None] in
  total (processingProgress (appState (demoAfterIterations allPages 3 s))) = 3
  /\ 0 <= current (processingProgress (appState (demoAfterIterations allPages 3 s))) <= 3.
Proof.
  intros s.
  destruct (progress_is_position_of_last_success _ _ _ _
              Demo.renderPageAsImage Demo.performOCR allPages s 3)
    as (Htotal & Hbound & _); [vm_compute; lia|].
  split; [exact Htotal|exact Hbound].
Defined.

(** X6 after two pages of which the second failed. *)
Lemma live_preview_shows_last_succeeded_page_witness :
  let s := demoLoaded 2 [Some (lit "first page"); None] in
  livePreview (appState (demoAfterIterations allPages 2 s)) = Some (lit "first page").
Proof.
  intros s.
  destruct (live_preview_shows_last_succeeded_page _ _ _ _
              Demo.renderPageAsImage Demo.performOCR allPages s 2)
    as (Hpreview & _); [vm_compute; lia|].
  exact Hpreview.
Defined.

(** X7 once the analysis requested before a reset has settled. *)
Lemma analysis_spinner_never_stuck_witness :
  exists ss,
    demoReplay staleEvents (demoSession twoTexts) = Some ss
    /\ isAnalyzing (appState (store ss)) = false.
Proof.
  eexists. split; [vm_compute; reflexivity|].
  match goal with
  | |- isAnalyzing (appState (store ?ss)) = false =>
      destruct (analysis_spinner_never_stuck
                  _ Demo.fileName _ Demo.numPages _ _ Demo.getDocument
                  Demo.renderPageAsImage Demo.performOCR Demo.analyzeText ss)
        as [Hflag _]
  end.
  - apply (demo_reachable staleEvents twoTexts). vm_compute. reflexivity.
  - reflexivity.
  - exact Hflag.
Defined.

(** X8 after a run over one page: the request of the handler and its
    settling, as two steps of the session. *)
Lemma request_then_settle_is_handleAnalyze_witness :
  exists ss,
    demoReplay processedEvents (demoSession twoTexts) = Some ss
    /\ demoStep (AnalysisSettles Demo.File (length (inFlight ss))) (demoRequestAnalysis ss) =
       Some {| store := snd (demoAnalyze (store ss)); inFlight := inFlight ss |}
    /\ isAnalyzing (appState (snd (demoAnalyze (store ss)))) = false.
Proof.
  eexists. split; [vm_compute; reflexivity|].
  match goal with
  | |- context [demoRequestAnalysis ?ss] =>
      destruct (request_then_settle_is_handleAnalyze
                  _ Demo.fileName _ Demo.numPages _ _ Demo.getDocument
                  Demo.renderPageAsImage Demo.performOCR Demo.analyzeText ss)
        as (Hsteps & _ & _ & Hflag & _)
  end.
  - vm_compute. reflexivity.
  - split; [exact Hsteps|exact Hflag].
Defined.

(** X9 at three clicks on the analysis tab after a run over one page. *)
Lemma repeated_tab_clicks_send_repeated_requests_witness :
  exists ss ss',
    demoReplay processedEvents (demoSession twoTexts) = Some ss
    /\ demoReplay (repeat (UI (ClickTab Demo.File TabAnalysis)) 3) ss = Some ss'
    /\ length (inFlight ss') = (length (inFlight ss) + 3)%nat
    /\ analysis (appState (store ss')) = None.
Proof.
  eexists.
  match goal with
  | |- exists ss', ?run = Some ?ss /\ _ =>
      assert (Hrun : run = Some ss) by (vm_compute; reflexivity);
      destruct (repeated_tab_clicks_send_repeated_requests
                  _ Demo.fileName _ Demo.numPages _ _ Demo.getDocument
                  Demo.renderPageAsImage Demo.performOCR Demo.analyzeText 3 ss)
        as (ss' & Hclicks & Hlen & _ & Hnone & _)
  end.
  - reflexivity.
  - reflexivity.
  - vm_compute. reflexivity.
  - exists ss'. split; [exact Hrun|]. split; [exact Hclicks|].
    split; [exact Hlen|exact Hnone].
Defined.

(** X10 at an edit of the text while the result of an analysis is stored. *)
Lemma no_request_while_result_stored_witness :
  exists ss,
    demoReplay (processedEvents ++
                [UI (ClickTab Demo.File TabAnalysis); AnalysisSettles Demo.File 0;
                 UI (ClickTab Demo.File TabEditor)])
               (demoSession twoTexts) = Some ss
    /\ analysis (appState (store ss)) <> None
    /\ inFlight (demoDispatch (EditorChange Demo.File (lit "edited")) ss) = inFlight ss
    /\ analysis (appState (store (demoDispatch (EditorChange Demo.File (lit "edited")) ss))) =
       analysis (appState (store ss)).
Proof.
  eexists. split; [vm_compute; reflexivity|].
  match goal with
  | |- analysis (appState (store ?ss)) <> None /\ _ =>
      assert (Hstored : analysis (appState (store ss)) <> None) by discriminate;
      destruct (no_request_while_result_stored
                  _ Demo.fileName _ Demo.numPages _ _ Demo.getDocument
                  Demo.renderPageAsImage Demo.performOCR Demo.analyzeText
                  (EditorChange Demo.File (lit "edited")) ss)
        as (Hflight & _ & Hkept)
  end.
  - reflexivity.
  - exact Hstored.
  - split; [exact Hstored|]. split; [exact Hflight|]. apply Hkept. discriminate.
Defined.

(** X11 after a run over a file whose name has two dots. *)
Lemma downloads_are_named_after_the_loaded_file_witness :
  exists ss,
    demoReplay [UI (FileSelected (lit "scan.v2.pdf", 1)); UI (ConfigStart Demo.File allPages)]
               (demoSession twoTexts) = Some ss
    /\ exists file stem,
         currentFile (appState (store ss)) = Some file
         /\ ~ In 46%N stem
         /\ (Demo.fileName file = stem \/ exists rest, Demo.fileName file = stem ++ 46%N :: rest)
         /\ effects (store (demoDispatch (ClickDownloadText Demo.File) ss)) =
            effects (store ss) ++
            [SaveAs Demo.File Demo.PdfDoc Demo.Exn
                    (TextBlob (editorText (appState (store ss)))
                              (lit "text/plain;charset=utf-8"))
                    (stem ++ lit "_extracted.txt")].
Proof.
  eexists. split; [vm_compute; reflexivity|].
  match goal with
  | |- context [demoDispatch _ ?ss] =>
      destruct (downloads_are_named_after_the_loaded_file
                  _ Demo.fileName _ Demo.numPages _ _ Demo.getDocument
                  Demo.renderPageAsImage Demo.performOCR Demo.analyzeText ss)
        as (file & stem & Hfile & Hstem & Hname & Htext & _)
  end.
  - apply (demo_reachable
             [UI (FileSelected (lit "scan.v2.pdf", 1)); UI (ConfigStart Demo.File allPages)]
             twoTexts).
    vm_compute. reflexivity.
  - reflexivity.
  - exists file, stem. split; [exact Hfile|]. split; [exact Hstem|]. split; [exact Hname|].
    now rewrite Htext.
Defined.
